(** * game-collector: the HTTP handlers of [main.go]

    A shallow embedding of the request handlers of [main.go]
    ([addHandler], [quickAddHandler], [deleteHandler],
    [suggestGamesHandler], [indexHandler], [gameHandler] and the helper
    [executeTemplates]) and of the route table of [makeRouter], together
    with the small part of Go's [net/http], [net/url] and [database/sql]
    they are written against.

    The packages the handlers call but that are not part of [main.go]
    ([time], [data], [giantbomb], [encoding/json], [text/template]) are
    interfaces here: the handlers are verified for every implementation
    of them. *)

From Stdlib Require Import ZArith String List Ascii.
From stdpp Require Import base gmap strings list.

Open Scope string_scope.
Open Scope Z_scope.

(** ** Go values *)

(** A non-nil [error], identified by its message. *)
Definition error := string.

(** A Go result pair [(v, err)]: either a value with [err == nil] or a
    non-nil error. *)
Inductive result (A : Type) : Type :=
| Ok (a : A)
| Err (e : error).
Arguments Ok {A} a.
Arguments Err {A} e.

(** [net/url]: [type Values map[string][]string]. *)
Abbreviation Values := (gmap string (list string)).

(** [func (v Values) Get(key string) string]: the first value of [key],
    or the empty string when there is none. *)
Definition Values_Get (v : Values) (key : string) : string :=
  match v !! key with
  | Some (x :: _) => x
  | _ => ""
  end.

(** Map indexing [v[key]]: the nil slice for a missing key. *)
Definition Values_index (v : Values) (key : string) : list string :=
  match v !! key with
  | Some vs => vs
  | None => []
  end.

(** Map indexing with the comma-ok form, [vs, ok := v[key]]. *)
Definition Values_index_ok (v : Values) (key : string) : list string * bool :=
  match v !! key with
  | Some vs => (vs, true)
  | None => ([], false)
  end.

(** [len(s)] on a string. *)
Definition len (s : string) : Z := Z.of_nat (String.length s).

(** [net/http] status codes used by the handlers. *)
Definition StatusOK : Z := 200.
Definition StatusTemporaryRedirect : Z := 307.
Definition StatusBadRequest : Z := 400.
Definition StatusInternalServerError : Z := 500.

(** [database/sql]: [type NullString struct { String string; Valid bool }]. *)
Record NullString := mkNullString {
  NS_String : string;
  NS_Valid : bool
}.

(** ** The [time] package *)

(** [time.Time], its zero value [time.Time{}] and [time.Parse(layout, value)]. *)
Class TimePkg := {
  Time : Type;
  Time_zero : Time;
  time_Parse : string -> string -> result Time
}.

(** ** The [data] package: records *)

(** [data.NullTime]: [struct { Time time.Time; Valid bool }]. *)
Record NullTime {TP : TimePkg} := mkNullTime {
  NT_Time : Time;
  NT_Valid : bool
}.

(** Modelled from the spec: the declaration of [data.Game] is not in
    [main.go]; the spec's data model gives it an integer [id], a text
    [name], an optional text [note] and an optional date [beatenOn].
    The handlers assign [Name], [Note] and [BeatenOn] only. *)
Record Game {TP : TimePkg} := mkGame {
  ID : Z;
  Name : string;
  Note : NullString;
  BeatenOn : NullTime
}.

(** [var game data.Game]: the zero value. *)
Definition Game_zero {TP : TimePkg} : Game :=
  {| ID := 0;
     Name := "";
     Note := {| NS_String := ""; NS_Valid := false |};
     BeatenOn := {| NT_Time := Time_zero; NT_Valid := false |} |}.

Definition set_Name {TP : TimePkg} (g : Game) (n : string) : Game :=
  {| ID := ID g; Name := n; Note := Note g; BeatenOn := BeatenOn g |}.
Definition set_Note {TP : TimePkg} (g : Game) (n : NullString) : Game :=
  {| ID := ID g; Name := Name g; Note := n; BeatenOn := BeatenOn g |}.
Definition set_BeatenOn {TP : TimePkg} (g : Game) (b : NullTime) : Game :=
  {| ID := ID g; Name := Name g; Note := Note g; BeatenOn := b |}.

(** The argument [data interface{}] of [executeTemplates]; the handlers
    embedded here pass [nil] only. *)
Inductive TemplateData : Type :=
| data_nil.

(** ** The outside world

    [Sys] is everything outside the handler: the database behind the
    [data] package, the clock, the template files and the remote Giant
    Bomb service. Every call returns its Go results and the next state of
    the outside world. *)
Class Externals {TP : TimePkg} := {
  Sys : Type;
  (** [time.Now()] *)
  time_Now : Sys -> Time;
  (** [data.AddGame(game) error] *)
  data_AddGame : Game -> Sys -> option error * Sys;
  (** [data.DeleteGame(name) (int64, error)] *)
  data_DeleteGame : string -> Sys -> (Z * option error) * Sys;
  (** [giantbomb.Search(query, limit, page, resources)], which also reads
      the package variable [giantbomb.FieldList]; the value is
      [resp.Results]. *)
  Results : Type;
  giantbomb_ResourceTypeGame : string;
  giantbomb_Search :
    list string -> string -> Z -> Z -> list string -> Sys -> result Results * Sys;
  (** [json.Marshal(v)] *)
  json_Marshal : Results -> result string;
  (** [template.ParseFiles(filenames...)] *)
  Template : Type;
  template_ParseFiles : list string -> Sys -> result Template;
  (** [t.ExecuteTemplate(wr, name, data)]: the byte slices the template
      passes to [wr.Write], one call each and in order (a slice may be
      empty), and the error. *)
  Template_ExecuteTemplate :
    Template -> string -> TemplateData -> list string * option error
}.

(** ** Requests and responses *)

(** [*http.Request], as far as the handlers read it: the method, the
    parsed query string [r.URL.Query()], and what [r.ParseForm()] makes
    of the request: an error, or the form values it leaves in [r.Form]. *)
Record Request := mkRequest {
  Method : string;
  URL_Query : Values;
  Form_parsed : result Values
}.

(** [r.ParseForm()] *)
Definition ParseForm (r : Request) : option error :=
  match Form_parsed r with
  | Ok _ => None
  | Err e => Some e
  end.

(** [r.Form] after [r.ParseForm()]. *)
Definition Form (r : Request) : Values :=
  match Form_parsed r with
  | Ok v => v
  | Err _ => ∅
  end.

(** [http.ResponseWriter]: the header map, the status line once it has
    been written, and the body written so far. *)
Record ResponseWriter := mkResponseWriter {
  header : gmap string (list string);
  status : option Z;
  body : string
}.

Definition ResponseWriter_new : ResponseWriter :=
  {| header := ∅; status := None; body := "" |}.

(** [w.Header().Set(key, value)] *)
Definition Header_Set (key value : string) (w : ResponseWriter) : ResponseWriter :=
  {| header := <[key := [value]]> (header w); status := status w; body := body w |}.

(** [w.WriteHeader(code)]: only the first call writes the status line. *)
Definition WriteHeader (code : Z) (w : ResponseWriter) : ResponseWriter :=
  match status w with
  | Some _ => w
  | None => {| header := header w; status := Some code; body := body w |}
  end.

(** [w.Write(b)]: writes the status line with [StatusOK] first when no
    status was written yet. *)
Definition Write (b : string) (w : ResponseWriter) : ResponseWriter :=
  let w' := WriteHeader StatusOK w in
  {| header := header w'; status := status w'; body := body w' ++ b |}.

(** A run of [w.Write] calls, in order. A call with an empty slice
    writes the status line like any other; no call leaves [w] as it is. *)
Definition Write_all (chunks : list string) (w : ResponseWriter) : ResponseWriter :=
  fold_left (fun w' b => Write b w') chunks w.

(** The bytes of a run of writes. *)
Fixpoint written (chunks : list string) : string :=
  match chunks with
  | [] => ""
  | b :: chunks' => b ++ written chunks'
  end.

(** ** Handler state, events and the handler monad *)

(** The calls a handler makes to the outside world, with their results. *)
Inductive Event {TP : TimePkg} : Type :=
| CallNow (t : Time)
| CallAddGame (g : Game) (err : option error)
| CallDeleteGame (name : string) (rowsAffected : Z) (err : option error)
| CallSearch (fields : list string) (query : string) (limit page : Z)
    (resources : list string) (failed : bool)
| CallParseFiles (filenames : list string) (failed : bool)
| CallLog (msg : string).

Record State {TP : TimePkg} {EX : Externals} := mkState {
  sys : Sys;
  w : ResponseWriter;
  trace : list Event;
  giantbomb_FieldList : list string
}.

(** A handler either returns or panics (an index out of range); both leave
    a state behind. *)
Inductive Outcome {TP : TimePkg} {EX : Externals} (A : Type) : Type :=
| Returned (a : A) (s : State)
| Panicked (msg : string) (s : State).
Arguments Returned {TP EX A} a s.
Arguments Panicked {TP EX A} msg s.

Definition M {TP : TimePkg} {EX : Externals} (A : Type) : Type :=
  State -> Outcome A.

Section Monad.
Context {TP : TimePkg} {EX : Externals}.

Definition ret {A} (a : A) : M A := fun s => Returned a s.

Definition bind {A B} (m : M A) (k : A -> M B) : M B :=
  fun s =>
    match m s with
    | Returned a s' => k a s'
    | Panicked msg s' => Panicked msg s'
    end.

Definition panic {A} (msg : string) : M A := fun s => Panicked msg s.

Definition emit (e : Event) : M unit :=
  fun s => Returned tt
    {| sys := sys s; w := w s; trace := trace s ++ [e];
       giantbomb_FieldList := giantbomb_FieldList s |}.

Definition get_sys : M Sys := fun s => Returned (sys s) s.

Definition put_sys (y : Sys) : M unit :=
  fun s => Returned tt
    {| sys := y; w := w s; trace := trace s;
       giantbomb_FieldList := giantbomb_FieldList s |}.

Definition on_writer (f : ResponseWriter -> ResponseWriter) : M unit :=
  fun s => Returned tt
    {| sys := sys s; w := f (w s); trace := trace s;
       giantbomb_FieldList := giantbomb_FieldList s |}.

Definition get_FieldList : M (list string) :=
  fun s => Returned (giantbomb_FieldList s) s.

Definition set_FieldList (fl : list string) : M unit :=
  fun s => Returned tt
    {| sys := sys s; w := w s; trace := trace s; giantbomb_FieldList := fl |}.
End Monad.

Notation "x <- m ;; k" := (bind m (fun x => k))
  (at level 100, m at next level, right associativity).
Notation "m >> k" := (bind m (fun _ => k))
  (at level 100, k at level 200, right associativity).

(** ** Primitives of the handlers *)

Section Primitives.
Context {TP : TimePkg} {EX : Externals}.

(** Slice indexing [s[i]]: a run-time panic when [i] is out of range. *)
Definition index (s : list string) (i : nat) : M string :=
  match s !! i with
  | Some x => ret x
  | None => panic "runtime error: index out of range"
  end.

(** [http.Error(w, msg, code)]: sets the [Content-Type] header to plain
    text, writes the status line with [code], then the message and a
    newline as the body. *)
Definition http_Error (msg : string) (code : Z) : M unit :=
  on_writer (Header_Set "Content-Type" "text/plain; charset=utf-8") >>
  on_writer (WriteHeader code) >>
  on_writer (Write (msg ++ String "010" "")).

(** [http.Redirect(w, r, url, code)] for a request that is not a GET:
    the [Location] header and the status line ([addHandler] calls it on
    its non-GET branch only, where [net/http] writes no body). *)
Definition http_Redirect (url : string) (code : Z) : M unit :=
  on_writer (Header_Set "Location" url) >>
  on_writer (WriteHeader code).

(** [log.Println(err)] *)
Definition log_Println (msg : string) : M unit := emit (CallLog msg).

(** [time.Now()] *)
Definition Now : M Time :=
  y <- get_sys ;;
  let t := time_Now y in
  emit (CallNow t) >>
  ret t.

(** [data.AddGame(game)] *)
Definition AddGame (game : Game) : M (option error) :=
  y <- get_sys ;;
  let '(err, y') := data_AddGame game y in
  put_sys y' >>
  emit (CallAddGame game err) >>
  ret err.

(** [data.DeleteGame(name)] *)
Definition DeleteGame (name : string) : M (Z * option error) :=
  y <- get_sys ;;
  let '((rows, err), y') := data_DeleteGame name y in
  put_sys y' >>
  emit (CallDeleteGame name rows err) >>
  ret (rows, err).

Definition is_Err {A} (x : result A) : bool :=
  match x with
  | Ok _ => false
  | Err _ => true
  end.

(** [giantbomb.Search(query, limit, page, resources)] *)
Definition Search (query : string) (limit page : Z) (resources : list string)
  : M (result Results) :=
  fl <- get_FieldList ;;
  y <- get_sys ;;
  let '(res, y') := giantbomb_Search fl query limit page resources y in
  put_sys y' >>
  emit (CallSearch fl query limit page resources (is_Err res)) >>
  ret res.

(** [template.ParseFiles(filenames...)] *)
Definition ParseFiles (filenames : list string) : M (result Template) :=
  y <- get_sys ;;
  let res := template_ParseFiles filenames y in
  emit (CallParseFiles filenames (is_Err res)) >>
  ret res.

(** [t.ExecuteTemplate(wr, name, data)] with [wr] the response writer:
    every write of the template reaches it, also when the template then
    fails. *)
Definition ExecuteTemplate (t : Template) (name : string) (data : TemplateData)
  : M (option error) :=
  let '(chunks, err) := Template_ExecuteTemplate t name data in
  on_writer (Write_all chunks) >>
  ret err.

(** ** [main.go] *)

(** [func executeTemplates(wr io.Writer, data interface{}, filenames ...string) error] *)
Definition executeTemplates (data : TemplateData) (filenames : list string)
  : M (option error) :=
  let filenames := (filenames ++ ["templates/base.html"])%list in
  res <- ParseFiles filenames ;;
  match res with
  | Err err => ret (Some err)
  | Ok t => ExecuteTemplate t "base" data
  end.

(** The tail of [addHandler]'s POST branch, from [data.AddGame(game)] on:
    both branches of the [beaten_on] test continue here. *)
Definition addHandler_store (game : Game) : M unit :=
  err <- AddGame game ;;
  match err with
  | Some _ => http_Error "Failed to add a game." StatusInternalServerError
  | None => http_Redirect "/" StatusTemporaryRedirect
  end.

(** [func addHandler(w http.ResponseWriter, r *http.Request)] *)
Definition addHandler (r : Request) : M unit :=
  if String.eqb (Method r) "GET" then
    err <- executeTemplates data_nil ["templates/add.html"] ;;
    match err with
    | Some _ => http_Error "Failed to execute template." StatusInternalServerError
    | None => ret tt
    end
  else
    match ParseForm r with
    | Some _ => http_Error "Failed to parse submitted form." StatusInternalServerError
    | None =>
      let vals := Form r in
      let game := Game_zero in
      let game := set_Name game (Values_Get vals "name") in
      let game := set_Note game
        {| NS_String := Values_Get vals "note"; NS_Valid := true |} in
      first <- index (Values_index (Form r) "beaten_on") 0 ;;
      if 0 <? len first then
        value <- index (Values_index (Form r) "beaten_on") 0 ;;
        match time_Parse "2006-01-02" value with
        | Err _ => http_Error "Failed to parse date." StatusBadRequest
        | Ok parsed =>
          let game := set_BeatenOn game
            {| NT_Time := parsed; NT_Valid := true |} in
          addHandler_store game
        end
      else
        let game := set_BeatenOn game
          {| NT_Time := Time_zero; NT_Valid := true |} in
        addHandler_store game
    end.

(** [func quickAddHandler(w http.ResponseWriter, r *http.Request)] *)
Definition quickAddHandler (r : Request) : M unit :=
  match ParseForm r with
  | Some _ => http_Error "Failed to parse submitted form." StatusInternalServerError
  | None =>
    let vals := Form r in
    let game := Game_zero in
    let game := set_Name game (Values_Get vals "name") in
    let game := set_Note game {| NS_String := ""; NS_Valid := false |} in
    now <- Now ;;
    let game := set_BeatenOn game {| NT_Time := now; NT_Valid := true |} in
    err <- AddGame game ;;
    match err with
    | Some err =>
      log_Println err >>
      http_Error "Failed to add a game." StatusInternalServerError
    | None => on_writer (WriteHeader StatusOK)
    end
  end.

(** [func deleteHandler(w http.ResponseWriter, r *http.Request)]; the
    local [name := vals.Get("name")] is never read and is left out. *)
Definition deleteHandler (r : Request) : M unit :=
  match ParseForm r with
  | Some _ => http_Error "Failed to parse submitted form." StatusInternalServerError
  | None =>
    let vals := Form r in
    res <- DeleteGame (Values_Get vals "name") ;;
    let '(rowsAffected, err) := res in
    match err with
    | Some err =>
      log_Println err >>
      http_Error "Failed to delete a game." StatusInternalServerError
    | None =>
      if rowsAffected =? 0 then
        http_Error "Can't find this game." StatusBadRequest
      else
        on_writer (WriteHeader StatusOK)
    end
  end.

(** [func suggestGamesHandler(w http.ResponseWriter, r *http.Request)] *)
Definition suggestGamesHandler (r : Request) : M unit :=
  let qvals := URL_Query r in
  let '(query, ok) := Values_index_ok qvals "q" in
  if negb ok then
    http_Error "Query is empty." StatusBadRequest
  else
    set_FieldList ["id"; "name"; "platforms"] >>
    q0 <- index query 0 ;;
    res <- Search q0 10 1 [giantbomb_ResourceTypeGame] ;;
    match res with
    | Err err =>
      http_Error "Search failed." StatusInternalServerError >>
      log_Println err
    | Ok results =>
      match json_Marshal results with
      | Err err =>
        http_Error "Internal error." StatusInternalServerError >>
        log_Println err
      | Ok b =>
        on_writer (Header_Set "Content-Type" "application/json") >>
        on_writer (Write b)
      end
    end.

End Primitives.

(** ** Serving one request, and what can be observed of it *)

Section Observations.
Context {TP : TimePkg} {EX : Externals}.

(** The state a handler starts in: a fresh response writer and no call
    made yet. *)
Definition initial (y : Sys) (fl : list string) : State :=
  {| sys := y; w := ResponseWriter_new; trace := []; giantbomb_FieldList := fl |}.

Definition serve (h : Request -> M unit) (r : Request) (y : Sys) (fl : list string)
  : Outcome unit :=
  h r (initial y fl).

Definition final {A} (o : Outcome A) : State :=
  match o with
  | Returned _ s => s
  | Panicked _ s => s
  end.

Definition panicked {A} (o : Outcome A) : bool :=
  match o with
  | Returned _ _ => false
  | Panicked _ _ => true
  end.

(** The records passed to [data.AddGame], in order. *)
Definition added_games (tr : list Event) : list Game :=
  flat_map (fun e => match e with CallAddGame g _ => [g] | _ => [] end) tr.

Definition is_storage_call (e : Event) : bool :=
  match e with
  | CallAddGame _ _ | CallDeleteGame _ _ _ => true
  | _ => false
  end.

Definition is_search_call (e : Event) : bool :=
  match e with
  | CallSearch _ _ _ _ _ _ => true
  | _ => false
  end.

Definition storage_calls (tr : list Event) : list Event :=
  List.filter is_storage_call tr.

Definition search_calls (tr : list Event) : list Event :=
  List.filter is_search_call tr.

(** The reply of [http.Error(w, msg, code)] on a fresh response writer. *)
Definition error_reply (msg : string) (code : Z) : ResponseWriter :=
  {| header := <["Content-Type" := ["text/plain; charset=utf-8"]]> ∅;
     status := Some code;
     body := msg ++ String "010" "" |}.

(** The reply of [http.Redirect(w, r, url, code)] on a fresh response
    writer, for a request that is not a GET. *)
Definition redirect_reply (url : string) (code : Z) : ResponseWriter :=
  {| header := <["Location" := [url]]> ∅; status := Some code; body := "" |}.

(** The reply of [w.WriteHeader(code)] on a fresh response writer. *)
Definition bare_reply (code : Z) : ResponseWriter :=
  {| header := ∅; status := Some code; body := "" |}.

(** The record [quickAddHandler] builds from the form and the clock. *)
Definition quickAdd_game (vals : Values) (now : Time) : Game :=
  {| ID := 0;
     Name := Values_Get vals "name";
     Note := {| NS_String := ""; NS_Valid := false |};
     BeatenOn := {| NT_Time := now; NT_Valid := true |} |}.

(** The record [addHandler] builds from the form and the date it stores. *)
Definition add_game_of (vals : Values) (t : Time) : Game :=
  {| ID := 0;
     Name := Values_Get vals "name";
     Note := {| NS_String := Values_Get vals "note"; NS_Valid := true |};
     BeatenOn := {| NT_Time := t; NT_Valid := true |} |}.

(** The state the three form handlers leave behind on a form that
    [ParseForm] rejects. *)
Definition parse_failure_state (y : Sys) (fl : list string) : State :=
  {| sys := y;
     w := error_reply "Failed to parse submitted form." StatusInternalServerError;
     trace := [];
     giantbomb_FieldList := fl |}.

(** The outcomes of [addHandler]'s POST branch on a parseable form, by
    what the form holds under [beaten_on]. *)
Inductive add_outcome (r : Request) (y : Sys) (fl : list string) (vals : Values)
  : Prop :=
| add_panics :
    Values_index vals "beaten_on" = [] ->
    serve addHandler r y fl =
      Panicked "runtime error: index out of range" (initial y fl) ->
    add_outcome r y fl vals
| add_bad_date (v : string) (rest : list string) (e : error) :
    Values_index vals "beaten_on" = v :: rest ->
    v <> "" ->
    time_Parse "2006-01-02" v = Err e ->
    serve addHandler r y fl =
      Returned tt
        {| sys := y; w := error_reply "Failed to parse date." StatusBadRequest;
           trace := []; giantbomb_FieldList := fl |} ->
    add_outcome r y fl vals
| add_stores (v : string) (rest : list string) (t : Time) (err : option error)
    (y' : Sys) :
    Values_index vals "beaten_on" = v :: rest ->
    (v = "" /\ t = Time_zero \/ v <> "" /\ time_Parse "2006-01-02" v = Ok t) ->
    data_AddGame (add_game_of vals t) y = (err, y') ->
    serve addHandler r y fl =
      Returned tt
        {| sys := y';
           w := match err with
                | Some _ =>
                  error_reply "Failed to add a game." StatusInternalServerError
                | None => redirect_reply "/" StatusTemporaryRedirect
                end;
           trace := [CallAddGame (add_game_of vals t) err];
           giantbomb_FieldList := fl |} ->
    add_outcome r y fl vals.

End Observations.

(** ** A small implementation of the interfaces

    An in-memory world to run the handlers on concrete requests: dates
    are calendar dates, the database is a list of records that can be
    switched off, the catalogue is a list of titles. *)

Module Sim.

Record Date := mkDate { year : Z; month : Z; day : Z }.

Definition digit (c : ascii) : option Z :=
  let n := Z.of_nat (nat_of_ascii c) in
  if (48 <=? n) && (n <=? 57) then Some (n - 48) else None.

Definition is_leap (y : Z) : bool :=
  ((y mod 4 =? 0) && negb (y mod 100 =? 0)) || (y mod 400 =? 0).

Definition days_in (y m : Z) : Z :=
  if m =? 2 then (if is_leap y then 29 else 28)
  else if (m =? 4) || (m =? 6) || (m =? 9) || (m =? 11) then 30
  else 31.

Definition check_date (y m d : Z) : result Date :=
  if (m <? 1) || (12 <? m) then Err "month out of range"
  else if (d <? 1) || (days_in y m <? d) then Err "day out of range"
  else Ok {| year := y; month := m; day := d |}.

(** A date written [YYYY-MM-DD]. *)
Definition parse_ymd (s : string) : result Date :=
  match s with
  | String y1 (String y2 (String y3 (String y4 (String "-"
      (String m1 (String m2 (String "-" (String d1 (String d2 EmptyString))))))))) =>
    match digit y1, digit y2, digit y3, digit y4,
          digit m1, digit m2, digit d1, digit d2 with
    | Some a, Some b, Some c, Some d, Some e, Some f, Some g, Some h =>
      check_date (1000 * a + 100 * b + 10 * c + d) (10 * e + f) (10 * g + h)
    | _, _, _, _, _, _, _, _ => Err "cannot parse"
    end
  | _ => Err "cannot parse"
  end.

#[export] Instance time_pkg : TimePkg := {|
  Time := Date;
  Time_zero := {| year := 1; month := 1; day := 1 |};
  time_Parse layout value :=
    if String.eqb layout "2006-01-02" then parse_ymd value
    else Err "unsupported layout"
|}.

Record World := mkWorld {
  games : list Game;
  today : Date;
  db_down : bool;
  catalogue : list string;
  net_down : bool
}.

Definition with_games (y : World) (gs : list Game) : World :=
  {| games := gs; today := today y; db_down := db_down y;
     catalogue := catalogue y; net_down := net_down y |}.

Definition add_game (g : Game) (y : World) : option error * World :=
  if db_down y then (Some "database is down", y)
  else (None, with_games y (games y ++ [g])).

Definition delete_game (name : string) (y : World) : (Z * option error) * World :=
  if db_down y then ((0, Some "database is down"), y)
  else
    let kept := List.filter (fun g => negb (String.eqb (Name g) name)) (games y) in
    ((Z.of_nat (length (games y)) - Z.of_nat (length kept), None), with_games y kept).

Definition search (fields : list string) (query : string) (limit page : Z)
  (resources : list string) (y : World) : result (list string) * World :=
  if net_down y then (Err "network is down", y)
  else (Ok (List.filter (String.prefix query) (catalogue y)), y).

Definition marshal (titles : list string) : result string :=
  Ok ("[" ++ String.concat "," titles ++ "]").

#[export] Instance externals : Externals := {|
  Sys := World;
  time_Now y := today y;
  data_AddGame := add_game;
  data_DeleteGame := delete_game;
  Results := list string;
  giantbomb_ResourceTypeGame := "game";
  giantbomb_Search := search;
  json_Marshal := marshal;
  Template := unit;
  template_ParseFiles _ _ := Ok tt;
  Template_ExecuteTemplate _ _ _ := (["<html>"; "</html>"], None)
|}.

(** A world with one recorded game, on 14 March 2021. *)
Definition world : World :=
  {| games := [ {| ID := 1; Name := "Hades";
                   Note := {| NS_String := ""; NS_Valid := true |};
                   BeatenOn := {| NT_Time := {| year := 2020; month := 12; day := 10 |};
                                  NT_Valid := true |} |} ];
     today := {| year := 2021; month := 3; day := 14 |};
     db_down := false;
     catalogue := ["Celeste"; "Hades"; "Hollow Knight"];
     net_down := false |}.

(** The same world with the database switched off. *)
Definition world_db_down : World :=
  {| games := games world; today := today world; db_down := true;
     catalogue := catalogue world; net_down := net_down world |}.

(** [POST] with a form body of the given fields. *)
Definition post (fields : list (string * list string)) : Request :=
  {| Method := "POST"; URL_Query := ∅; Form_parsed := Ok (list_to_map fields) |}.

(** [POST] with a body that [ParseForm] rejects. *)
Definition post_malformed : Request :=
  {| Method := "POST"; URL_Query := ∅;
     Form_parsed := Err "invalid URL escape" |}.

(** [GET] with the given query parameters. *)
Definition get (query : list (string * list string)) : Request :=
  {| Method := "GET"; URL_Query := list_to_map query; Form_parsed := Ok (list_to_map query) |}.

(** The requests of the scenarios. *)
Definition suggest_empty_q : Request := get [("q", [""])].
Definition quick_add_celeste : Request := post [("name", ["Celeste"])].
Definition add_hades : Request :=
  post [("name", ["Hades"]); ("beaten_on", ["2020-12-10"])].
Definition add_bad_date : Request :=
  post [("name", ["Hades"]); ("beaten_on", ["not-a-date"])].
Definition add_empty_date : Request :=
  post [("name", ["Hades"]); ("note", ["great"]); ("beaten_on", [""])].
Definition add_no_date : Request := post [("name", ["Hades"])].
Definition delete_celeste : Request := post [("name", ["Celeste"])].

(** Serving one request in this world, with [giantbomb.FieldList] unset. *)
Definition run (h : Request -> M unit) (r : Request) (y : World) : Outcome unit :=
  serve (TP := time_pkg) (EX := externals) h r y [].

End Sim.

(** ** The listing and detail pages *)

(** The values [indexHandler] and [gameHandler] pass to
    [executeTemplates] as [data]: [struct{ Games []data.Game }{games}]
    and [struct{ ID int }{id}]. *)
Inductive PageData {TP : TimePkg} : Type :=
| Games_data (Games : list Game)
| ID_data (ID : Z).

(** What the two page handlers call beyond [Externals]. *)
Class PagesPkg {TP : TimePkg} {EX : Externals} := {
  (** [data.GetAllGames() ([]data.Game, error)] *)
  data_GetAllGames : Sys -> (list Game * option error) * Sys;
  (** [strconv.Atoi(s)] *)
  strconv_Atoi : string -> result Z;
  (** [t.ExecuteTemplate(wr, name, data)] at the data of the two pages *)
  Template_ExecuteTemplate_page :
    Template -> string -> PageData -> list string * option error
}.

Section Pages.
Context {TP : TimePkg} {EX : Externals} {PG : PagesPkg}.

(** [data.GetAllGames()]: a read of the store behind [data]. *)
Definition GetAllGames : M (list Game * option error) :=
  y <- get_sys ;;
  let '(res, y') := data_GetAllGames y in
  put_sys y' >>
  ret res.

(** [t.ExecuteTemplate(wr, name, data)] with [wr] the response writer. *)
Definition ExecuteTemplate_page (t : Template) (name : string) (data : PageData)
  : M (option error) :=
  let '(chunks, err) := Template_ExecuteTemplate_page t name data in
  on_writer (Write_all chunks) >>
  ret err.

(** [executeTemplates(wr, data, filenames...)] at the data of the two
    pages. *)
Definition executeTemplates_page (data : PageData) (filenames : list string)
  : M (option error) :=
  let filenames := (filenames ++ ["templates/base.html"])%list in
  res <- ParseFiles filenames ;;
  match res with
  | Err err => ret (Some err)
  | Ok t => ExecuteTemplate_page t "base" data
  end.

(** [func indexHandler(w http.ResponseWriter, r *http.Request)];
    [fmt.Sprint(err)] is the message of [err]. *)
Definition indexHandler (r : Request) : M unit :=
  res <- GetAllGames ;;
  let '(games, err) := res in
  match err with
  | Some err =>
    log_Println err >>
    http_Error "Failed to get games." StatusInternalServerError
  | None =>
    err <- executeTemplates_page (Games_data games) ["templates/index.html"] ;;
    match err with
    | Some err => http_Error err StatusInternalServerError
    | None => ret tt
    end
  end.

(** Indexing a [map[string]string]: the empty string for a missing key. *)
Definition Vars_index (vars : gmap string string) (key : string) : string :=
  match vars !! key with
  | Some v => v
  | None => ""
  end.

(** [func gameHandler(w http.ResponseWriter, r *http.Request)], with
    [vars] the route variables [mux.Vars(r)] of the request. *)
Definition gameHandler (vars : gmap string string) (r : Request) : M unit :=
  match strconv_Atoi (Vars_index vars "id") with
  | Err _ => http_Error "Failed to parse game ID." StatusInternalServerError
  | Ok id =>
    err <- executeTemplates_page (ID_data id) ["templates/game.html"] ;;
    match err with
    | Some _ => http_Error "Failed to execute template." StatusInternalServerError
    | None => ret tt
    end
  end.

End Pages.

(** ** The router *)

(** The handlers [makeRouter] registers; [h_static] is the file server
    under [/static/]. *)
Inductive HandlerName : Type :=
| h_index
| h_game
| h_add
| h_quickAdd
| h_delete
| h_suggest
| h_static.

(** The path templates [makeRouter] uses: a template without variables
    ([r.HandleFunc(path, f)]), the template [/games/{id:[0-9]+}], and a
    prefix ([r.PathPrefix(prefix)]). *)
Inductive PathTemplate : Type :=
| exact_path (path : string)
| games_id_path
| prefix_path (prefix : string).

(** A route: its template, the methods of [.Methods(...)] (none: every
    method) and the handler. *)
Record Route := mkRoute {
  template : PathTemplate;
  methods : list string;
  handler : HandlerName
}.

(** [[0-9]] *)
Definition is_digit (c : ascii) : bool :=
  let n := nat_of_ascii c in
  (Nat.leb 48 n) && (Nat.leb n 57).

(** [[0-9]+] against the whole string. *)
Fixpoint all_digits (s : string) : bool :=
  match s with
  | EmptyString => true
  | String c s' => is_digit c && all_digits s'
  end.

Definition digits1 (s : string) : bool :=
  negb (String.eqb s "") && all_digits s.

(** [s] without the prefix [p], when it starts with [p]. *)
Fixpoint strip_prefix (p s : string) : option string :=
  match p with
  | EmptyString => Some s
  | String a p' =>
    match s with
    | EmptyString => None
    | String b s' => if Ascii.eqb a b then strip_prefix p' s' else None
    end
  end.

(** Whether a template matches a path on which the router runs the
    route's handler, and the route variables it then sets. With
    [StrictSlash(true)] a path that differs from the template by a
    trailing slash is answered by a redirect and runs no handler. *)
Definition match_path (t : PathTemplate) (path : string)
  : option (gmap string string) :=
  match t with
  | exact_path p => if String.eqb path p then Some ∅ else None
  | games_id_path =>
    match strip_prefix "/games/" path with
    | Some id => if digits1 id then Some {[ "id" := id ]} else None
    | None => None
    end
  | prefix_path p =>
    match strip_prefix p path with
    | Some _ => Some ∅
    | None => None
    end
  end.

Definition match_method (ms : list string) (method : string) : bool :=
  match ms with
  | [] => true
  | _ => existsb (String.eqb method) ms
  end.

(** [func makeRouter() *mux.Router]: the routes in the order they are
    registered. *)
Definition makeRouter : list Route :=
  [ {| template := exact_path "/"; methods := []; handler := h_index |};
    {| template := games_id_path; methods := []; handler := h_game |};
    {| template := exact_path "/games/add"; methods := ["GET"; "POST"];
       handler := h_add |};
    {| template := exact_path "/games/quick-add"; methods := ["POST"];
       handler := h_quickAdd |};
    {| template := exact_path "/games/delete"; methods := ["POST"];
       handler := h_delete |};
    {| template := exact_path "/suggest/games"; methods := [];
       handler := h_suggest |};
    {| template := prefix_path "/static/"; methods := [];
       handler := h_static |} ].

(** [Router.Match]: the first route, in order, whose template and methods
    both match. *)
Fixpoint Match (routes : list Route) (method path : string)
  : option (HandlerName * gmap string string) :=
  match routes with
  | [] => None
  | rt :: routes' =>
    match match_path (template rt) path with
    | Some vars =>
      if match_method (methods rt) method then Some (handler rt, vars)
      else Match routes' method path
    | None => Match routes' method path
    end
  end.

Section Dispatch.
Context {TP : TimePkg} {EX : Externals} {PG : PagesPkg}.

(** The handler of [main.go] the router runs for a request to [path];
    [None] when no route matches or the file server is the target. *)
Definition route_handler (r : Request) (path : string) : option (M unit) :=
  match Match makeRouter (Method r) path with
  | Some (h_index, _) => Some (indexHandler r)
  | Some (h_game, vars) => Some (gameHandler vars r)
  | Some (h_add, _) => Some (addHandler r)
  | Some (h_quickAdd, _) => Some (quickAddHandler r)
  | Some (h_delete, _) => Some (deleteHandler r)
  | Some (h_suggest, _) => Some (suggestGamesHandler r)
  | Some (h_static, _) => None
  | None => None
  end.

(** The writer [http.Error(w, msg, code)] leaves, from the writer [w]. *)
Definition Error_writer (msg : string) (code : Z) (w : ResponseWriter)
  : ResponseWriter :=
  Write (msg ++ String "010" "")
    (WriteHeader code (Header_Set "Content-Type" "text/plain; charset=utf-8" w)).

(** The writer after a template has made the writes [chunks] to a fresh
    writer. *)
Definition rendered (chunks : list string) : ResponseWriter :=
  Write_all chunks ResponseWriter_new.

(** The messages logged, in order. *)
Definition logged (tr : list Event) : list string :=
  flat_map (fun e => match e with CallLog msg => [msg] | _ => [] end) tr.

End Dispatch.

(** ** A scripted implementation of the interfaces

    Every call answers from a script held in the world; calls that write
    to the store are counted. *)

Module Script.

#[local] Existing Instance Sim.time_pkg.

Record World := mkWorld {
  clock : Sim.Date;
  add_answer : option error;
  delete_answer : Z * option error;
  list_answer : list Game * option error;
  search_answer : result (option (list string));
  files_answer : result (list string * option error);
  writes : nat
}.

Definition written (y : World) : World :=
  {| clock := clock y; add_answer := add_answer y;
     delete_answer := delete_answer y; list_answer := list_answer y;
     search_answer := search_answer y; files_answer := files_answer y;
     writes := S (writes y) |}.

(** A value [json.Marshal] rejects is [None]. *)
Definition marshal (v : option (list string)) : result string :=
  match v with
  | Some titles => Sim.marshal titles
  | None => Err "json: unsupported value"
  end.

#[export] Instance externals : Externals := {|
  Sys := World;
  time_Now y := clock y;
  data_AddGame _ y := (add_answer y, written y);
  data_DeleteGame _ y := (delete_answer y, written y);
  Results := option (list string);
  giantbomb_ResourceTypeGame := "game";
  giantbomb_Search _ _ _ _ _ y := (search_answer y, y);
  json_Marshal := marshal;
  Template := list string * option error;
  template_ParseFiles _ y := files_answer y;
  Template_ExecuteTemplate t _ _ := t
|}.

(** Decimal digits to a number. *)
Fixpoint decimal (acc : Z) (s : string) : Z :=
  match s with
  | EmptyString => acc
  | String c s' => decimal (10 * acc + (Z.of_nat (nat_of_ascii c) - 48)) s'
  end.

(** An unsigned decimal that fits 63 bits. *)
Definition atoi (s : string) : result Z :=
  if digits1 s then
    if decimal 0 s <? 2 ^ 63 then Ok (decimal 0 s) else Err "value out of range"
  else Err "invalid syntax".

#[export] Instance pages : PagesPkg (EX := externals) := {|
  data_GetAllGames y := (list_answer y, y);
  strconv_Atoi := atoi;
  Template_ExecuteTemplate_page t _ _ := t
|}.

(** A world where every call succeeds. *)
Definition fine : World :=
  {| clock := {| Sim.year := 2021; Sim.month := 3; Sim.day := 14 |};
     add_answer := None;
     delete_answer := (1, None);
     list_answer := (Sim.games Sim.world, None);
     search_answer := Ok (Some ["Hades"]);
     files_answer := Ok (["<html>"; "</html>"], None);
     writes := 0 |}.

(** The store fails. *)
Definition store_down : World :=
  {| clock := clock fine;
     add_answer := Some "database is down";
     delete_answer := (0, Some "database is down");
     list_answer := ([], Some "database is down");
     search_answer := search_answer fine;
     files_answer := files_answer fine;
     writes := 0 |}.

(** The template files are missing. *)
Definition no_templates : World :=
  {| clock := clock fine; add_answer := None; delete_answer := (1, None);
     list_answer := list_answer fine; search_answer := search_answer fine;
     files_answer := Err "open templates/base.html: no such file";
     writes := 0 |}.

(** The template fails after it has written a part of the page. *)
Definition late_template_error : World :=
  {| clock := clock fine; add_answer := None; delete_answer := (1, None);
     list_answer := list_answer fine; search_answer := search_answer fine;
     files_answer := Ok (["<html>"], Some "template: no such field");
     writes := 0 |}.

(** The template fails before its first write. *)
Definition early_template_error : World :=
  {| clock := clock fine; add_answer := None; delete_answer := (1, None);
     list_answer := list_answer fine; search_answer := search_answer fine;
     files_answer := Ok ([], Some "template: no such field");
     writes := 0 |}.

(** The template fails after one write, of an empty slice. *)
Definition empty_write_template_error : World :=
  {| clock := clock fine; add_answer := None; delete_answer := (1, None);
     list_answer := list_answer fine; search_answer := search_answer fine;
     files_answer := Ok ([""], Some "template: no such field");
     writes := 0 |}.

(** The template succeeds with one write, of an empty slice. *)
Definition empty_page : World :=
  {| clock := clock fine; add_answer := None; delete_answer := (1, None);
     list_answer := list_answer fine; search_answer := search_answer fine;
     files_answer := Ok ([""], None);
     writes := 0 |}.

(** The search provider fails. *)
Definition search_down : World :=
  {| clock := clock fine; add_answer := None; delete_answer := (1, None);
     list_answer := list_answer fine;
     search_answer := Err "giantbomb: timeout";
     files_answer := files_answer fine; writes := 0 |}.

(** The search provider answers with a value [json.Marshal] rejects. *)
Definition unmarshalable : World :=
  {| clock := clock fine; add_answer := None; delete_answer := (1, None);
     list_answer := list_answer fine;
     search_answer := Ok None;
     files_answer := files_answer fine; writes := 0 |}.

(** Serving one request in a scripted world. *)
Definition run (h : Request -> M unit) (r : Request) (y : World) : Outcome unit :=
  serve (TP := Sim.time_pkg) (EX := externals) h r y [].

(** [GET] of a page, no query. *)
Definition get_page : Request := Sim.get [].

(** [GET /suggest/games?q=Ha&q=Ce]. *)
Definition suggest_two : Request := Sim.get [("q", ["Ha"; "Ce"])].

(** [GET /suggest/games?q=Ha&page=2]. *)
Definition suggest_one : Request := Sim.get [("q", ["Ha"]); ("page", ["2"])].

(** A form with [name=Celeste] and fields the handler does not ask for. *)
Definition celeste_with_extras : Request :=
  Sim.post [("name", ["Celeste"; "Hades"]); ("note", ["later"]);
            ("beaten_on", ["1999-01-01"])].

(** The listing page and a detail page in a scripted world. *)
Definition run_index (y : World) : Outcome unit :=
  run (indexHandler (PG := pages)) get_page y.

Definition run_game (vars : gmap string string) (y : World) : Outcome unit :=
  gameHandler (PG := pages) vars get_page (initial y []).

End Script.

(** * Properties of the handlers *)

Section Properties.
Context {TP : TimePkg} {EX : Externals}.

(** ** Running the primitives *)

Ltac unfold_monad :=
  unfold bind, ret, panic, emit, get_sys, put_sys, on_writer,
    get_FieldList, set_FieldList.

(** The monad laws, pointwise. *)
Lemma bind_ret_l {A B} (a : A) (k : A -> M B) (s : State) :
  bind (ret a) k s = k a s.
Proof. reflexivity. Qed.

Lemma bind_ret_r {A} (m : M A) (s : State) :
  bind m ret s = m s.
Proof. unfold bind, ret. destruct (m s); reflexivity. Qed.

Lemma bind_assoc {A B C} (m : M A) (k : A -> M B) (k' : B -> M C) (s : State) :
  bind (bind m k) k' s = bind m (fun a => bind (k a) k') s.
Proof. unfold bind. destruct (m s); reflexivity. Qed.

(** A panic cuts the rest of the handler off. *)
Lemma bind_panic {A B} (msg : string) (k : A -> M B) (s : State) :
  bind (panic msg) k s = Panicked msg s.
Proof. reflexivity. Qed.

(** [http.Error] on a fresh writer leaves exactly [error_reply]. *)
Lemma http_Error_fresh (msg : string) (code : Z) (y : Sys) (tr : list Event)
    (fl : list string) :
  http_Error msg code
    {| sys := y; w := ResponseWriter_new; trace := tr; giantbomb_FieldList := fl |}
  = Returned tt
    {| sys := y; w := error_reply msg code; trace := tr; giantbomb_FieldList := fl |}.
Proof. reflexivity. Qed.

(** [http.Redirect] on a fresh writer leaves exactly [redirect_reply]. *)
Lemma http_Redirect_fresh (url : string) (code : Z) (y : Sys) (tr : list Event)
    (fl : list string) :
  http_Redirect url code
    {| sys := y; w := ResponseWriter_new; trace := tr; giantbomb_FieldList := fl |}
  = Returned tt
    {| sys := y; w := redirect_reply url code; trace := tr; giantbomb_FieldList := fl |}.
Proof. reflexivity. Qed.

Lemma len_pos (s : string) : s <> "" -> (0 <? len s) = true.
Proof.
  intros H. destruct s as [|c s]; [congruence|].
  unfold len. simpl String.length. apply Z.ltb_lt. lia.
Qed.

(** What [data.AddGame] leaves behind. *)
Lemma AddGame_run (g : Game) (s : State) (err : option error) (y' : Sys) :
  data_AddGame g (sys s) = (err, y') ->
  AddGame g s =
  Returned err
    {| sys := y'; w := w s; trace := trace s ++ [CallAddGame g err];
       giantbomb_FieldList := giantbomb_FieldList s |}.
Proof. intros H. unfold AddGame. unfold_monad. rewrite H. reflexivity. Qed.

(** What [data.DeleteGame] leaves behind. *)
Lemma DeleteGame_run (name : string) (s : State) (rows : Z) (err : option error)
    (y' : Sys) :
  data_DeleteGame name (sys s) = ((rows, err), y') ->
  DeleteGame name s =
  Returned (rows, err)
    {| sys := y'; w := w s; trace := trace s ++ [CallDeleteGame name rows err];
       giantbomb_FieldList := giantbomb_FieldList s |}.
Proof. intros H. unfold DeleteGame. unfold_monad. rewrite H. reflexivity. Qed.

(** ** Running the handlers *)

Lemma addHandler_malformed (r : Request) (y : Sys) (fl : list string) (e : error) :
  String.eqb (Method r) "GET" = false ->
  Form_parsed r = Err e ->
  serve addHandler r y fl = Returned tt (parse_failure_state y fl).
Proof.
  intros Hm Hf. unfold serve, addHandler, ParseForm. rewrite Hm, Hf. reflexivity.
Qed.

Lemma quickAddHandler_malformed (r : Request) (y : Sys) (fl : list string) (e : error) :
  Form_parsed r = Err e ->
  serve quickAddHandler r y fl = Returned tt (parse_failure_state y fl).
Proof.
  intros Hf. unfold serve, quickAddHandler, ParseForm. rewrite Hf. reflexivity.
Qed.

Lemma deleteHandler_malformed (r : Request) (y : Sys) (fl : list string) (e : error) :
  Form_parsed r = Err e ->
  serve deleteHandler r y fl = Returned tt (parse_failure_state y fl).
Proof.
  intros Hf. unfold serve, deleteHandler, ParseForm. rewrite Hf. reflexivity.
Qed.

(** [quickAddHandler] on a parseable form. *)
Lemma quickAddHandler_run (r : Request) (y y' : Sys) (fl : list string)
    (vals : Values) (err : option error) :
  Form_parsed r = Ok vals ->
  data_AddGame (quickAdd_game vals (time_Now y)) y = (err, y') ->
  serve quickAddHandler r y fl =
  Returned tt
    {| sys := y';
       w := match err with
            | Some _ => error_reply "Failed to add a game." StatusInternalServerError
            | None => bare_reply StatusOK
            end;
       trace := CallNow (time_Now y)
                :: CallAddGame (quickAdd_game vals (time_Now y)) err
                :: match err with Some e => [CallLog e] | None => [] end;
       giantbomb_FieldList := fl |}.
Proof.
  intros Hf Ha. unfold serve, quickAddHandler, ParseForm, Form. rewrite Hf.
  unfold Now. unfold bind at 1 2 3. simpl.
  unfold bind at 1.
  erewrite AddGame_run by exact Ha.
  destruct err as [e|]; reflexivity.
Qed.

(** The tail of [addHandler] from [data.AddGame] on, on a fresh writer. *)
Lemma addHandler_store_run (g : Game) (y y' : Sys) (fl : list string)
    (err : option error) :
  data_AddGame g y = (err, y') ->
  addHandler_store g (initial y fl) =
  Returned tt
    {| sys := y';
       w := match err with
            | Some _ => error_reply "Failed to add a game." StatusInternalServerError
            | None => redirect_reply "/" StatusTemporaryRedirect
            end;
       trace := [CallAddGame g err];
       giantbomb_FieldList := fl |}.
Proof.
  intros Ha. unfold addHandler_store, bind.
  erewrite AddGame_run by exact Ha.
  destruct err as [e|]; reflexivity.
Qed.

(** [addHandler], POST branch, no value under [beaten_on]: the index
    expression panics before anything is written or stored. *)
Lemma addHandler_no_beaten_on (r : Request) (y : Sys) (fl : list string)
    (vals : Values) :
  String.eqb (Method r) "GET" = false ->
  Form_parsed r = Ok vals ->
  Values_index vals "beaten_on" = [] ->
  serve addHandler r y fl =
  Panicked "runtime error: index out of range" (initial y fl).
Proof.
  intros Hm Hf Hb. unfold serve, addHandler, ParseForm, Form. rewrite Hm, Hf.
  rewrite Hb. reflexivity.
Qed.

(** [addHandler], POST branch, empty first value under [beaten_on]. *)
Lemma addHandler_empty_date (r : Request) (y : Sys) (fl : list string)
    (vals : Values) (rest : list string) :
  String.eqb (Method r) "GET" = false ->
  Form_parsed r = Ok vals ->
  Values_index vals "beaten_on" = "" :: rest ->
  serve addHandler r y fl =
  addHandler_store (add_game_of vals Time_zero) (initial y fl).
Proof.
  intros Hm Hf Hb. unfold serve, addHandler, ParseForm, Form. rewrite Hm, Hf.
  rewrite Hb. reflexivity.
Qed.

(** [addHandler], POST branch, non-empty first value under [beaten_on]. *)
Lemma addHandler_nonempty_date (r : Request) (y : Sys) (fl : list string)
    (vals : Values) (v : string) (rest : list string) :
  String.eqb (Method r) "GET" = false ->
  Form_parsed r = Ok vals ->
  Values_index vals "beaten_on" = v :: rest ->
  v <> "" ->
  serve addHandler r y fl =
  match time_Parse "2006-01-02" v with
  | Err _ =>
    Returned tt
      {| sys := y; w := error_reply "Failed to parse date." StatusBadRequest;
         trace := []; giantbomb_FieldList := fl |}
  | Ok parsed => addHandler_store (add_game_of vals parsed) (initial y fl)
  end.
Proof.
  intros Hm Hf Hb Hv. unfold serve, addHandler, ParseForm, Form. rewrite Hm, Hf.
  rewrite Hb. unfold index. simpl lookup. cbv beta iota delta [bind ret].
  rewrite (len_pos v Hv).
  destruct (time_Parse "2006-01-02" v); reflexivity.
Qed.

(** [deleteHandler] on a parseable form. *)
Lemma deleteHandler_run (r : Request) (y y' : Sys) (fl : list string)
    (vals : Values) (rows : Z) (err : option error) :
  Form_parsed r = Ok vals ->
  data_DeleteGame (Values_Get vals "name") y = ((rows, err), y') ->
  serve deleteHandler r y fl =
  Returned tt
    {| sys := y';
       w := match err with
            | Some _ => error_reply "Failed to delete a game." StatusInternalServerError
            | None =>
              if rows =? 0 then error_reply "Can't find this game." StatusBadRequest
              else bare_reply StatusOK
            end;
       trace := CallDeleteGame (Values_Get vals "name") rows err
                :: match err with Some e => [CallLog e] | None => [] end;
       giantbomb_FieldList := fl |}.
Proof.
  intros Hf Hd. unfold serve, deleteHandler, ParseForm, Form. rewrite Hf.
  unfold bind at 1.
  erewrite DeleteGame_run by exact Hd.
  destruct err as [e|]; [reflexivity|].
  destruct (rows =? 0); reflexivity.
Qed.

(** [suggestGamesHandler] without a [q] key: the reply is the 400 error
    and nothing else happens. *)
Lemma suggestGamesHandler_missing_q (r : Request) (y : Sys) (fl : list string) :
  URL_Query r !! "q" = None ->
  serve suggestGamesHandler r y fl =
  Returned tt
    {| sys := y; w := error_reply "Query is empty." StatusBadRequest;
       trace := []; giantbomb_FieldList := fl |}.
Proof.
  intros Hq. unfold serve, suggestGamesHandler, Values_index_ok. rewrite Hq.
  reflexivity.
Qed.

(** [suggestGamesHandler] with a [q] key: [giantbomb.Search] is called
    with the first value, whatever it is, and the reply depends on its
    result only. *)
Lemma suggestGamesHandler_present_q (r : Request) (y y' : Sys) (fl : list string)
    (q0 : string) (rest : list string) (res : result Results) :
  URL_Query r !! "q" = Some (q0 :: rest) ->
  giantbomb_Search ["id"; "name"; "platforms"] q0 10 1
    [giantbomb_ResourceTypeGame] y = (res, y') ->
  serve suggestGamesHandler r y fl =
  Returned tt
    {| sys := y';
       w := match res with
            | Err _ => error_reply "Search failed." StatusInternalServerError
            | Ok results =>
              match json_Marshal results with
              | Err _ => error_reply "Internal error." StatusInternalServerError
              | Ok b =>
                Write b (Header_Set "Content-Type" "application/json"
                           ResponseWriter_new)
              end
            end;
       trace := CallSearch ["id"; "name"; "platforms"] q0 10 1
                  [giantbomb_ResourceTypeGame] (is_Err res)
                :: match res with
                   | Err e => [CallLog e]
                   | Ok results =>
                     match json_Marshal results with
                     | Err e => [CallLog e]
                     | Ok _ => []
                     end
                   end;
       giantbomb_FieldList := ["id"; "name"; "platforms"] |}.
Proof.
  intros Hq Hs. unfold serve, suggestGamesHandler, Values_index_ok. rewrite Hq.
  cbv beta iota. unfold negb, index. simpl lookup.
  unfold Search. unfold_monad. simpl. rewrite Hs.
  destruct res as [results|e]; [|reflexivity].
  destruct (json_Marshal results); reflexivity.
Qed.

Lemma Values_index_Some (vals : Values) (key : string) (vs : list string) :
  vals !! key = Some vs -> Values_index vals key = vs.
Proof. intros H. unfold Values_index. rewrite H. reflexivity. Qed.

Lemma Values_index_None (vals : Values) (key : string) :
  vals !! key = None -> Values_index vals key = [].
Proof. intros H. unfold Values_index. rewrite H. reflexivity. Qed.

Lemma addHandler_cases (r : Request) (y : Sys) (fl : list string) (vals : Values) :
  String.eqb (Method r) "GET" = false ->
  Form_parsed r = Ok vals ->
  add_outcome r y fl vals.
Proof.
  intros Hm Hf.
  destruct (Values_index vals "beaten_on") as [|v rest] eqn:Hb.
  - apply add_panics; [exact Hb|].
    apply (addHandler_no_beaten_on r y fl vals Hm Hf Hb).
  - destruct (String.eqb_spec v "") as [Hv|Hv].
    + subst v.
      destruct (data_AddGame (add_game_of vals Time_zero) y) as [err y'] eqn:Ha.
      apply (add_stores r y fl vals "" rest Time_zero err y'); auto.
      rewrite (addHandler_empty_date r y fl vals rest Hm Hf Hb).
      apply addHandler_store_run. exact Ha.
    + pose proof (addHandler_nonempty_date r y fl vals v rest Hm Hf Hb Hv) as Hrun.
      destruct (time_Parse "2006-01-02" v) as [t|e] eqn:Hp.
      * destruct (data_AddGame (add_game_of vals t) y) as [err y'] eqn:Ha.
        apply (add_stores r y fl vals v rest t err y'); auto.
        rewrite Hrun. apply addHandler_store_run. exact Ha.
      * apply (add_bad_date r y fl vals v rest e); auto.
Qed.

(** ** The suggest endpoint *)

(** C1, on the input where the code departs from the claim. A request
    whose [q] parameter is present with the empty string as its value is
    not rejected: [suggestGamesHandler] tests only whether the key is
    there, so it calls [giantbomb.Search] with the empty query and the
    reply is never the 400 of "Query is empty.". *)
Theorem suggestGamesHandler_empty_q_is_searched (r : Request) (y : Sys)
    (fl : list string) (rest : list string) :
  URL_Query r !! "q" = Some ("" :: rest) ->
  panicked (serve suggestGamesHandler r y fl) = false /\
  (exists failed,
     search_calls (trace (final (serve suggestGamesHandler r y fl))) =
       [CallSearch ["id"; "name"; "platforms"] "" 10 1
          [giantbomb_ResourceTypeGame] failed]) /\
  status (w (final (serve suggestGamesHandler r y fl))) <> Some StatusBadRequest.
Proof.
  intros Hq.
  destruct (giantbomb_Search ["id"; "name"; "platforms"] "" 10 1
              [giantbomb_ResourceTypeGame] y) as [res y'] eqn:Hs.
  rewrite (suggestGamesHandler_present_q r y y' fl "" rest res Hq Hs).
  split; [reflexivity|]. split.
  - exists (is_Err res). simpl.
    destruct res as [results|e]; [|reflexivity].
    destruct (json_Marshal results); reflexivity.
  - simpl. destruct res as [results|e]; [|discriminate].
    destruct (json_Marshal results); discriminate.
Qed.

(** The part of C1 the code does keep: without a [q] key the reply is
    400 and [giantbomb.Search] is not called. *)
Lemma suggestGamesHandler_missing_q_rejected (r : Request) (y : Sys)
    (fl : list string) :
  URL_Query r !! "q" = None ->
  status (w (final (serve suggestGamesHandler r y fl))) = Some StatusBadRequest /\
  search_calls (trace (final (serve suggestGamesHandler r y fl))) = [] /\
  sys (final (serve suggestGamesHandler r y fl)) = y.
Proof.
  intros Hq. rewrite (suggestGamesHandler_missing_q r y fl Hq). auto.
Qed.

(** ** Quick-add *)

(** C2: on a parseable form, [quickAddHandler] passes exactly one record
    to storage; its note is absent (presence flag false) and its
    [beatenOn] is present and holds the reading of the server clock taken
    while the request is served. *)
Theorem quickAddHandler_note_absent_date_now (r : Request) (y : Sys)
    (fl : list string) (vals : Values) :
  Form_parsed r = Ok vals ->
  exists g,
    added_games (trace (final (serve quickAddHandler r y fl))) = [g] /\
    NS_Valid (Note g) = false /\
    BeatenOn g = {| NT_Time := time_Now y; NT_Valid := true |} /\
    In (CallNow (time_Now y)) (trace (final (serve quickAddHandler r y fl))).
Proof.
  intros Hf.
  destruct (data_AddGame (quickAdd_game vals (time_Now y)) y) as [err y'] eqn:Ha.
  rewrite (quickAddHandler_run r y y' fl vals err Hf Ha).
  exists (quickAdd_game vals (time_Now y)). simpl.
  destruct err as [e|]; simpl; auto.
Qed.

(** ** Full add *)


(** C4: when the first submitted [beaten_on] value is a non-empty
    string, [addHandler] parses it with the layout [2006-01-02]
    (YYYY-MM-DD). If that fails the reply is 400, no storage call is made
    and the outside world is unchanged; if it succeeds exactly one record
    is passed to storage and its [beatenOn] is present with the parsed
    date. *)
Theorem addHandler_nonempty_date_parsed (r : Request) (y : Sys)
    (fl : list string) (vals : Values) (v : string) (rest : list string) :
  String.eqb (Method r) "GET" = false ->
  Form_parsed r = Ok vals ->
  vals !! "beaten_on" = Some (v :: rest) ->
  v <> "" ->
  match time_Parse "2006-01-02" v with
  | Err _ =>
    status (w (final (serve addHandler r y fl))) = Some StatusBadRequest /\
    storage_calls (trace (final (serve addHandler r y fl))) = [] /\
    sys (final (serve addHandler r y fl)) = y
  | Ok parsed =>
    exists g,
      added_games (trace (final (serve addHandler r y fl))) = [g] /\
      BeatenOn g = {| NT_Time := parsed; NT_Valid := true |}
  end.
Proof.
  intros Hm Hf Hl Hv.
  rewrite (addHandler_nonempty_date r y fl vals v rest Hm Hf
             (Values_index_Some _ _ _ Hl) Hv).
  destruct (time_Parse "2006-01-02" v) as [t|e].
  - destruct (data_AddGame (add_game_of vals t) y) as [err y'] eqn:Ha.
    rewrite (addHandler_store_run _ y y' fl err Ha).
    exists (add_game_of vals t). split; reflexivity.
  - simpl. auto.
Qed.

(** C5: when the first submitted [beaten_on] value is the empty string,
    [addHandler] passes exactly one record to storage and its [beatenOn]
    is present (presence flag true) with the zero time. *)
Theorem addHandler_empty_date_present_zero (r : Request) (y : Sys)
    (fl : list string) (vals : Values) (rest : list string) :
  String.eqb (Method r) "GET" = false ->
  Form_parsed r = Ok vals ->
  vals !! "beaten_on" = Some ("" :: rest) ->
  exists g,
    added_games (trace (final (serve addHandler r y fl))) = [g] /\
    NT_Valid (BeatenOn g) = true /\
    NT_Time (BeatenOn g) = Time_zero.
Proof.
  intros Hm Hf Hl.
  rewrite (addHandler_empty_date r y fl vals rest Hm Hf (Values_index_Some _ _ _ Hl)).
  destruct (data_AddGame (add_game_of vals Time_zero) y) as [err y'] eqn:Ha.
  rewrite (addHandler_store_run _ y y' fl err Ha).
  exists (add_game_of vals Time_zero). repeat split; reflexivity.
Qed.

(** ** Delete *)

(** C6: on a parseable form, [deleteHandler] calls [data.DeleteGame] with
    the submitted name; when that reports zero affected rows and no error
    the reply is 400, and when it reports an error the reply is 500. *)
Theorem deleteHandler_not_found_is_bad_request (r : Request) (y : Sys)
    (fl : list string) (vals : Values) :
  Form_parsed r = Ok vals ->
  (forall y',
     data_DeleteGame (Values_Get vals "name") y = ((0, None), y') ->
     status (w (final (serve deleteHandler r y fl))) = Some StatusBadRequest) /\
  (forall rows e y',
     data_DeleteGame (Values_Get vals "name") y = ((rows, Some e), y') ->
     status (w (final (serve deleteHandler r y fl)))
       = Some StatusInternalServerError).
Proof.
  intros Hf. split.
  - intros y' Hd. rewrite (deleteHandler_run r y y' fl vals 0 None Hf Hd). reflexivity.
  - intros rows e y' Hd.
    rewrite (deleteHandler_run r y y' fl vals rows (Some e) Hf Hd). reflexivity.
Qed.

(** ** The name of a stored record *)


(** ** Malformed forms *)

(** C8, as amended: on a form that [ParseForm] rejects, [addHandler]
    (on its POST branch), [quickAddHandler] and [deleteHandler] return at
    once with the 500 reply "Failed to parse submitted form.", having
    made no call at all (none to storage in particular) and left the
    outside world unchanged. *)
Theorem malformed_form_is_server_error (r : Request) (y : Sys)
    (fl : list string) (e : error) :
  Form_parsed r = Err e ->
  (String.eqb (Method r) "GET" = false ->
   serve addHandler r y fl = Returned tt (parse_failure_state y fl)) /\
  serve quickAddHandler r y fl = Returned tt (parse_failure_state y fl) /\
  serve deleteHandler r y fl = Returned tt (parse_failure_state y fl) /\
  status (w (parse_failure_state y fl)) = Some StatusInternalServerError /\
  trace (parse_failure_state y fl) = [] /\
  sys (parse_failure_state y fl) = y.
Proof.
  intros Hf. split; [|split; [|split]].
  - intros Hm. apply (addHandler_malformed r y fl e Hm Hf).
  - apply (quickAddHandler_malformed r y fl e Hf).
  - apply (deleteHandler_malformed r y fl e Hf).
  - auto.
Qed.

(** ** Totality of the full add *)

(** C9: there is a POST request with a parseable form and no [beaten_on]
    key on which [addHandler] panics, whatever the outside world is; and
    on a parseable form [addHandler] returns (does not panic) exactly
    when the form holds at least one value, possibly empty, under
    [beaten_on]. *)
Theorem addHandler_panics_without_beaten_on :
  (exists r vals,
     Method r = "POST" /\ Form_parsed r = Ok vals /\
     vals !! "beaten_on" = None /\
     forall y fl,
       panicked (serve addHandler r y fl) = true /\
       w (final (serve addHandler r y fl)) = ResponseWriter_new) /\
  (forall r y fl vals,
     String.eqb (Method r) "GET" = false ->
     Form_parsed r = Ok vals ->
     (panicked (serve addHandler r y fl) = false <->
      exists v rest, vals !! "beaten_on" = Some (v :: rest))).
Proof.
  split.
  - exists {| Method := "POST"; URL_Query := ∅; Form_parsed := Ok ∅ |}, ∅.
    repeat split; try reflexivity.
  - intros r y fl vals Hm Hf.
    destruct (addHandler_cases r y fl vals Hm Hf)
      as [Hb Hrun | v rest e Hb Hv Hp Hrun | v rest t err y' Hb Hv Ha Hrun];
      rewrite Hrun; simpl.
    + split; [discriminate|]. intros (v & rest & Hl).
      rewrite (Values_index_Some _ _ _ Hl) in Hb. discriminate.
    + split; [|reflexivity]. intros _. exists v, rest.
      unfold Values_index in Hb. destruct (vals !! "beaten_on"); congruence.
    + split; [|reflexivity]. intros _. exists v, rest.
      unfold Values_index in Hb. destruct (vals !! "beaten_on"); congruence.
Qed.

(** ** The reply of a successful full add *)

(** C10: when [addHandler] serves a POST with a parseable form and the
    insert it makes succeeds, it returns with a redirect to [/] with the
    temporary-redirect status 307, and the insert is its only call. *)
Theorem addHandler_redirects_after_insert (r : Request) (y : Sys)
    (fl : list string) (vals : Values) (g : Game) :
  String.eqb (Method r) "GET" = false ->
  Form_parsed r = Ok vals ->
  In (CallAddGame g None) (trace (final (serve addHandler r y fl))) ->
  panicked (serve addHandler r y fl) = false /\
  status (w (final (serve addHandler r y fl))) = Some StatusTemporaryRedirect /\
  header (w (final (serve addHandler r y fl))) !! "Location" = Some ["/"] /\
  trace (final (serve addHandler r y fl)) = [CallAddGame g None].
Proof.
  intros Hm Hf.
  destruct (addHandler_cases r y fl vals Hm Hf)
    as [Hb Hrun | v rest e Hb Hv Hp Hrun | v rest t err y' Hb Hv Ha Hrun];
    rewrite Hrun; simpl.
  - intros [].
  - intros [].
  - intros [Heq|[]]. injection Heq as <- ->. simpl.
    split; [reflexivity|]. split; [reflexivity|]. split; [|reflexivity].
    apply lookup_insert_eq.
Qed.

End Properties.

(** * The handlers on concrete requests *)

Section Scenarios.
#[local] Existing Instance Sim.time_pkg.
#[local] Existing Instance Sim.externals.

(** [GET /suggest/games?q=]: the empty query reaches the search provider. *)
Lemma suggestGamesHandler_empty_q_is_searched_witness :
  panicked (Sim.run suggestGamesHandler Sim.suggest_empty_q Sim.world) = false /\
  (exists failed,
     search_calls
       (trace (final (Sim.run suggestGamesHandler Sim.suggest_empty_q Sim.world)))
     = [CallSearch ["id"; "name"; "platforms"] "" 10 1 ["game"] failed]) /\
  status (w (final (Sim.run suggestGamesHandler Sim.suggest_empty_q Sim.world)))
    <> Some StatusBadRequest.
Proof.
  apply (suggestGamesHandler_empty_q_is_searched (EX := Sim.externals)
           Sim.suggest_empty_q Sim.world [] []).
  reflexivity.
Defined.

(** Quick-add of [name=Celeste] on 14 March 2021. *)
Lemma quickAddHandler_note_absent_date_now_witness :
  exists g,
    added_games
      (trace (final (Sim.run quickAddHandler Sim.quick_add_celeste Sim.world)))
      = [g] /\
    NS_Valid (Note g) = false /\
    BeatenOn g =
      {| NT_Time := {| Sim.year := 2021; Sim.month := 3; Sim.day := 14 |};
         NT_Valid := true |} /\
    In (CallNow {| Sim.year := 2021; Sim.month := 3; Sim.day := 14 |})
      (trace (final (Sim.run quickAddHandler Sim.quick_add_celeste Sim.world))).
Proof.
  apply (quickAddHandler_note_absent_date_now (EX := Sim.externals)
           Sim.quick_add_celeste Sim.world [] (Form Sim.quick_add_celeste)).
  reflexivity.
Defined.


(** Full add with [beaten_on=2020-12-10] and with [beaten_on=not-a-date]. *)
Lemma addHandler_nonempty_date_parsed_witness :
  (exists g,
     added_games (trace (final (Sim.run addHandler Sim.add_hades Sim.world))) = [g] /\
     BeatenOn g =
       {| NT_Time := {| Sim.year := 2020; Sim.month := 12; Sim.day := 10 |};
          NT_Valid := true |}) /\
  (status (w (final (Sim.run addHandler Sim.add_bad_date Sim.world)))
     = Some StatusBadRequest /\
   storage_calls (trace (final (Sim.run addHandler Sim.add_bad_date Sim.world))) = [] /\
   sys (final (Sim.run addHandler Sim.add_bad_date Sim.world)) = Sim.world).
Proof.
  split.
  - apply (addHandler_nonempty_date_parsed (EX := Sim.externals)
             Sim.add_hades Sim.world [] (Form Sim.add_hades) "2020-12-10" []);
      [reflexivity | reflexivity | reflexivity | discriminate].
  - apply (addHandler_nonempty_date_parsed (EX := Sim.externals)
             Sim.add_bad_date Sim.world [] (Form Sim.add_bad_date) "not-a-date" []);
      [reflexivity | reflexivity | reflexivity | discriminate].
Defined.

(** Full add with [beaten_on=] (submitted, empty). *)
Lemma addHandler_empty_date_present_zero_witness :
  exists g,
    added_games (trace (final (Sim.run addHandler Sim.add_empty_date Sim.world))) = [g] /\
    NT_Valid (BeatenOn g) = true /\
    NT_Time (BeatenOn g) = {| Sim.year := 1; Sim.month := 1; Sim.day := 1 |}.
Proof.
  apply (addHandler_empty_date_present_zero (EX := Sim.externals)
           Sim.add_empty_date Sim.world [] (Form Sim.add_empty_date) []);
    reflexivity.
Defined.

(** Delete of a name that is not stored, and delete with the database
    switched off. *)
Lemma deleteHandler_not_found_is_bad_request_witness :
  status (w (final (Sim.run deleteHandler Sim.delete_celeste Sim.world)))
    = Some StatusBadRequest /\
  status (w (final (Sim.run deleteHandler Sim.delete_celeste Sim.world_db_down)))
    = Some StatusInternalServerError.
Proof.
  split.
  - apply (proj1 (deleteHandler_not_found_is_bad_request (EX := Sim.externals)
                    Sim.delete_celeste Sim.world [] (Form Sim.delete_celeste) eq_refl)
             Sim.world).
    reflexivity.
  - apply (proj2 (deleteHandler_not_found_is_bad_request (EX := Sim.externals)
                    Sim.delete_celeste Sim.world_db_down []
                    (Form Sim.delete_celeste) eq_refl)
             0 "database is down" Sim.world_db_down).
    reflexivity.
Defined.



(** C8 as stated fails: on a malformed form the reply of quick-add is
    500, not 400. *)
Lemma malformed_form_bad_request_counterexample :
  status (w (final (Sim.run quickAddHandler Sim.post_malformed Sim.world)))
    = Some StatusInternalServerError /\
  status (w (final (Sim.run quickAddHandler Sim.post_malformed Sim.world)))
    <> Some StatusBadRequest.
Proof. split; [reflexivity | discriminate]. Qed.

(** A malformed form posted to each of the three form handlers. *)
Lemma malformed_form_is_server_error_witness :
  Sim.run addHandler Sim.post_malformed Sim.world
    = Returned tt (parse_failure_state Sim.world []) /\
  Sim.run quickAddHandler Sim.post_malformed Sim.world
    = Returned tt (parse_failure_state Sim.world []) /\
  Sim.run deleteHandler Sim.post_malformed Sim.world
    = Returned tt (parse_failure_state Sim.world []) /\
  status (w (parse_failure_state Sim.world [])) = Some StatusInternalServerError.
Proof.
  destruct (malformed_form_is_server_error (EX := Sim.externals)
              Sim.post_malformed Sim.world [] "invalid URL escape" eq_refl)
    as (Hadd & Hquick & Hdelete & Hstatus & _).
  split; [exact (Hadd eq_refl)|]. split; [exact Hquick|].
  split; [exact Hdelete | exact Hstatus].
Defined.

(** Full add with and without a [beaten_on] field. *)
Lemma addHandler_panics_without_beaten_on_witness :
  panicked (Sim.run addHandler Sim.add_hades Sim.world) = false /\
  panicked (Sim.run addHandler Sim.add_no_date Sim.world) <> false.
Proof.
  split.
  - apply (proj2 (addHandler_panics_without_beaten_on (EX := Sim.externals))
             Sim.add_hades Sim.world [] (Form Sim.add_hades) eq_refl eq_refl).
    exists "2020-12-10", []. reflexivity.
  - intros Hp.
    apply (proj2 (addHandler_panics_without_beaten_on (EX := Sim.externals))
             Sim.add_no_date Sim.world [] (Form Sim.add_no_date) eq_refl eq_refl)
      in Hp.
    destruct Hp as (v & rest & Hl). discriminate Hl.
Defined.

(** Full add of [name=Hades, beaten_on=2020-12-10]: a 307 to [/]. *)
Lemma addHandler_redirects_after_insert_witness :
  panicked (Sim.run addHandler Sim.add_hades Sim.world) = false /\
  status (w (final (Sim.run addHandler Sim.add_hades Sim.world)))
    = Some StatusTemporaryRedirect /\
  header (w (final (Sim.run addHandler Sim.add_hades Sim.world))) !! "Location"
    = Some ["/"] /\
  trace (final (Sim.run addHandler Sim.add_hades Sim.world))
    = [CallAddGame
         (add_game_of (Form Sim.add_hades)
            {| Sim.year := 2020; Sim.month := 12; Sim.day := 10 |})
         None].
Proof.
  apply (addHandler_redirects_after_insert (EX := Sim.externals)
           Sim.add_hades Sim.world [] (Form Sim.add_hades)
           (add_game_of (TP := Sim.time_pkg) (Form Sim.add_hades)
              {| Sim.year := 2020; Sim.month := 12; Sim.day := 10 |})
           eq_refl eq_refl).
  left. reflexivity.
Defined.

End Scenarios.

(** * Further properties of [main.go] *)

Section Replies.
Context {TP : TimePkg} {EX : Externals}.

(** ** Running [http.Error] and [executeTemplates] *)

Lemma http_Error_run (msg : string) (code : Z) (s : State) :
  http_Error msg code s =
  Returned tt
    {| sys := sys s; w := Error_writer msg code (w s); trace := trace s;
       giantbomb_FieldList := giantbomb_FieldList s |}.
Proof. reflexivity. Qed.

(** A status line, once written, is not replaced by [http.Error]. *)
Lemma Error_writer_keeps_status (msg : string) (code c : Z) (wr : ResponseWriter) :
  status wr = Some c ->
  status (Error_writer msg code wr) = Some c /\
  body (Error_writer msg code wr) = body wr ++ msg ++ String "010" "".
Proof.
  intros H. destruct wr as [h st b]. simpl in H. subst st.
  split; reflexivity.
Qed.

Lemma Error_writer_new (msg : string) (code : Z) :
  Error_writer msg code ResponseWriter_new = error_reply msg code.
Proof. reflexivity. Qed.

Lemma string_app_nil_r (a : string) : a ++ "" = a.
Proof.
  induction a as [|c a IH]; [reflexivity|].
  change (String c (a ++ "") = String c a). rewrite IH. reflexivity.
Qed.

Lemma string_app_assoc (a b c : string) : (a ++ b) ++ c = a ++ (b ++ c).
Proof.
  induction a as [|x a IH]; [reflexivity|].
  change (String x ((a ++ b) ++ c) = String x (a ++ (b ++ c))).
  rewrite IH. reflexivity.
Qed.

(** Once the status line is written, further writes only append. *)
Lemma Write_all_written (chunks : list string) (wr : ResponseWriter) (c : Z) :
  status wr = Some c ->
  Write_all chunks wr =
  {| header := header wr; status := Some c; body := body wr ++ written chunks |}.
Proof.
  revert wr. induction chunks as [|b chunks IH]; intros wr H.
  - destruct wr as [h st bd]. cbn [status] in H. subst st.
    cbn [Write_all fold_left written header status body].
    rewrite string_app_nil_r. reflexivity.
  - unfold Write_all. simpl fold_left. fold (Write_all chunks (Write b wr)).
    rewrite (IH (Write b wr)).
    + destruct wr as [h st bd]. cbn [status] in H. subst st.
      cbn [Write WriteHeader written header status body].
      rewrite string_app_assoc. reflexivity.
    + destruct wr as [h st bd]. cbn [status] in H. subst st. reflexivity.
Qed.

(** No write leaves a fresh writer fresh. *)
Lemma rendered_nil : rendered [] = ResponseWriter_new.
Proof. reflexivity. Qed.

(** The first write, whatever its length, writes the status line 200. *)
Lemma rendered_cons (b : string) (chunks : list string) :
  rendered (b :: chunks) =
  {| header := ∅; status := Some StatusOK; body := written (b :: chunks) |}.
Proof.
  unfold rendered, Write_all. simpl fold_left.
  fold (Write_all chunks (Write b ResponseWriter_new)).
  rewrite (Write_all_written chunks (Write b ResponseWriter_new) StatusOK);
    reflexivity.
Qed.

(** [executeTemplates] on a fresh writer. *)
Lemma executeTemplates_run (data : TemplateData) (filenames : list string)
    (y : Sys) (tr : list Event) (fl : list string) :
  executeTemplates data filenames
    {| sys := y; w := ResponseWriter_new; trace := tr; giantbomb_FieldList := fl |}
  = match template_ParseFiles (filenames ++ ["templates/base.html"]) y with
    | Err e =>
      Returned (Some e)
        {| sys := y; w := ResponseWriter_new;
           trace := tr ++ [CallParseFiles (filenames ++ ["templates/base.html"]) true];
           giantbomb_FieldList := fl |}
    | Ok t =>
      Returned (snd (Template_ExecuteTemplate t "base" data))
        {| sys := y; w := rendered (fst (Template_ExecuteTemplate t "base" data));
           trace := tr ++ [CallParseFiles (filenames ++ ["templates/base.html"]) false];
           giantbomb_FieldList := fl |}
    end.
Proof.
  unfold executeTemplates, ParseFiles, bind, get_sys, emit, ret. simpl.
  destruct (template_ParseFiles (filenames ++ ["templates/base.html"]) y) as [t|e];
    simpl; [|reflexivity].
  unfold ExecuteTemplate, rendered.
  destruct (Template_ExecuteTemplate t "base" data) as [chunks err].
  reflexivity.
Qed.

(** [addHandler] on a GET. *)
Lemma addHandler_GET_run (r : Request) (y : Sys) (fl : list string) :
  Method r = "GET" ->
  serve addHandler r y fl =
  match template_ParseFiles ["templates/add.html"; "templates/base.html"] y with
  | Err e =>
    Returned tt
      {| sys := y;
         w := error_reply "Failed to execute template." StatusInternalServerError;
         trace := [CallParseFiles ["templates/add.html"; "templates/base.html"] true];
         giantbomb_FieldList := fl |}
  | Ok t =>
    Returned tt
      {| sys := y;
         w := match snd (Template_ExecuteTemplate t "base" data_nil) with
              | Some _ =>
                Error_writer "Failed to execute template." StatusInternalServerError
                  (rendered (fst (Template_ExecuteTemplate t "base" data_nil)))
              | None => rendered (fst (Template_ExecuteTemplate t "base" data_nil))
              end;
         trace := [CallParseFiles ["templates/add.html"; "templates/base.html"] false];
         giantbomb_FieldList := fl |}
  end.
Proof.
  intros Hm. unfold serve, addHandler. rewrite Hm, String.eqb_refl.
  unfold bind at 1. unfold initial. rewrite executeTemplates_run. simpl app.
  destruct (template_ParseFiles ["templates/add.html"; "templates/base.html"] y)
    as [t|e]; [|reflexivity].
  destruct (snd (Template_ExecuteTemplate t "base" data_nil)); reflexivity.
Qed.

(** [suggestGamesHandler] on a [q] key without any value: the index
    expression panics after [giantbomb.FieldList] was assigned. *)
Lemma suggestGamesHandler_no_value (r : Request) (y : Sys) (fl : list string) :
  URL_Query r !! "q" = Some [] ->
  serve suggestGamesHandler r y fl =
  Panicked "runtime error: index out of range"
    {| sys := y; w := ResponseWriter_new; trace := [];
       giantbomb_FieldList := ["id"; "name"; "platforms"] |}.
Proof.
  intros Hq. unfold serve, suggestGamesHandler, Values_index_ok. rewrite Hq.
  reflexivity.
Qed.

(** ** The add form (GET) *)

(** X1. On a GET, [addHandler] only renders the form: it reads nothing of
    the request but the method, parses [templates/add.html] with
    [templates/base.html], makes no other call and leaves the outside
    world as it was. *)
Theorem addHandler_GET_only_renders (r r' : Request) (y : Sys) (fl : list string) :
  Method r = "GET" ->
  Method r' = "GET" ->
  serve addHandler r y fl = serve addHandler r' y fl /\
  panicked (serve addHandler r y fl) = false /\
  sys (final (serve addHandler r y fl)) = y /\
  exists failed,
    trace (final (serve addHandler r y fl)) =
      [CallParseFiles ["templates/add.html"; "templates/base.html"] failed].
Proof.
  intros Hm Hm'.
  rewrite (addHandler_GET_run r y fl Hm), (addHandler_GET_run r' y fl Hm').
  split; [reflexivity|].
  destruct (template_ParseFiles ["templates/add.html"; "templates/base.html"] y);
    simpl; eauto.
Qed.

(** X2. When rendering the add form fails, the reply is the 500 error
    only if no write was made before: if the files cannot be parsed, or
    the template fails before its first write. If the template fails
    after a write, be it of an empty slice, the status stays 200 and the
    error message is appended to what was written. *)
Theorem addHandler_GET_template_failure (r : Request) (y : Sys) (fl : list string) :
  Method r = "GET" ->
  (forall e,
     template_ParseFiles ["templates/add.html"; "templates/base.html"] y = Err e ->
     w (final (serve addHandler r y fl)) =
       error_reply "Failed to execute template." StatusInternalServerError) /\
  (forall t chunks e,
     template_ParseFiles ["templates/add.html"; "templates/base.html"] y = Ok t ->
     Template_ExecuteTemplate t "base" data_nil = (chunks, Some e) ->
     (chunks = [] ->
      w (final (serve addHandler r y fl)) =
        error_reply "Failed to execute template." StatusInternalServerError) /\
     (chunks <> [] ->
      status (w (final (serve addHandler r y fl))) = Some StatusOK /\
      body (w (final (serve addHandler r y fl))) =
        written chunks ++ "Failed to execute template." ++ String "010" "")).
Proof.
  intros Hm. rewrite (addHandler_GET_run r y fl Hm). split.
  - intros e He. rewrite He. reflexivity.
  - intros t chunks e Ht Hx. rewrite Ht, Hx. simpl. split.
    + intros ->. reflexivity.
    + intros Hne. destruct chunks as [|b chunks]; [congruence|].
      rewrite rendered_cons. split; reflexivity.
Qed.

(** ** Full add (POST) *)

(** X3. When the insert of a full add fails, the reply is the 500 error
    "Failed to add a game." and the insert is the handler's only call:
    the storage error is not logged. *)
Theorem addHandler_insert_failure (r : Request) (y : Sys) (fl : list string)
    (vals : Values) (g : Game) (e : error) :
  String.eqb (Method r) "GET" = false ->
  Form_parsed r = Ok vals ->
  In (CallAddGame g (Some e)) (trace (final (serve addHandler r y fl))) ->
  w (final (serve addHandler r y fl)) =
    error_reply "Failed to add a game." StatusInternalServerError /\
  trace (final (serve addHandler r y fl)) = [CallAddGame g (Some e)].
Proof.
  intros Hm Hf.
  destruct (addHandler_cases r y fl vals Hm Hf)
    as [Hb Hrun | v rest e' Hb Hv Hp Hrun | v rest t err y' Hb Hv Ha Hrun];
    rewrite Hrun; simpl.
  - intros [].
  - intros [].
  - intros [Heq|[]]. injection Heq as <- ->. split; reflexivity.
Qed.

(** X4. The replies of [addHandler] on a request that is not a GET: it
    panics before writing or calling anything, or it returns with status
    307, 400 or 500 (never 200); and all it ever calls is
    [data.AddGame], at most once. *)
Theorem addHandler_POST_replies (r : Request) (y : Sys) (fl : list string) :
  String.eqb (Method r) "GET" = false ->
  (panicked (serve addHandler r y fl) = true ->
   final (serve addHandler r y fl) = initial y fl) /\
  (panicked (serve addHandler r y fl) = false ->
   status (w (final (serve addHandler r y fl))) = Some StatusTemporaryRedirect \/
   status (w (final (serve addHandler r y fl))) = Some StatusBadRequest \/
   status (w (final (serve addHandler r y fl))) = Some StatusInternalServerError) /\
  (trace (final (serve addHandler r y fl)) = [] \/
   exists g err, trace (final (serve addHandler r y fl)) = [CallAddGame g err]).
Proof.
  intros Hm. destruct (Form_parsed r) as [vals|e] eqn:Hf.
  - destruct (addHandler_cases r y fl vals Hm Hf)
      as [Hb Hrun | v rest e' Hb Hv Hp Hrun | v rest t err y' Hb Hv Ha Hrun];
      rewrite Hrun; simpl.
    + split; [reflexivity|]. split; [discriminate|]. auto.
    + split; [discriminate|]. auto.
    + split; [discriminate|]. split; [|eauto].
      intros _. destruct err; simpl; auto.
  - rewrite (addHandler_malformed r y fl e Hm Hf). simpl.
    split; [discriminate|]. auto.
Qed.

(** ** Quick-add *)

(** X5. [quickAddHandler] never panics. It replies 200, with no header
    and no body, exactly when its insert succeeds; when the insert fails
    it replies with the 500 error "Failed to add a game." and logs the
    storage error, once. *)
Theorem quickAddHandler_replies (r : Request) (y : Sys) (fl : list string) :
  panicked (serve quickAddHandler r y fl) = false /\
  (status (w (final (serve quickAddHandler r y fl))) = Some StatusOK <->
   exists g, In (CallAddGame g None) (trace (final (serve quickAddHandler r y fl)))) /\
  (status (w (final (serve quickAddHandler r y fl))) = Some StatusOK ->
   w (final (serve quickAddHandler r y fl)) = bare_reply StatusOK /\
   logged (trace (final (serve quickAddHandler r y fl))) = []) /\
  (forall g e,
     In (CallAddGame g (Some e)) (trace (final (serve quickAddHandler r y fl))) ->
     w (final (serve quickAddHandler r y fl)) =
       error_reply "Failed to add a game." StatusInternalServerError /\
     logged (trace (final (serve quickAddHandler r y fl))) = [e]).
Proof.
  destruct (Form_parsed r) as [vals|e] eqn:Hf.
  - destruct (data_AddGame (quickAdd_game vals (time_Now y)) y) as [err y'] eqn:Ha.
    rewrite (quickAddHandler_run r y y' fl vals err Hf Ha).
    destruct err as [e|]; simpl.
    + split; [reflexivity|]. split; [|split].
      * split; [discriminate|].
        intros [g [Hg|[Hg|[Hg|[]]]]]; discriminate.
      * discriminate.
      * intros g e' [Hg|[Hg|[Hg|[]]]]; try discriminate.
        injection Hg as _ ->. split; reflexivity.
    + split; [reflexivity|]. split; [|split].
      * split; [|reflexivity]. intros _. eauto.
      * intros _. split; reflexivity.
      * intros g e' [Hg|[Hg|[]]]; discriminate.
  - rewrite (quickAddHandler_malformed r y fl e Hf). simpl.
    split; [reflexivity|]. split; [|split].
    + split; [discriminate|]. intros [g []].
    + discriminate.
    + intros g e' [].
Qed.

(** X6. [quickAddHandler] reads nothing of a parseable request but the
    first value of [name]: submitted [note] or [beaten_on] fields, the
    method and the query string make no difference. *)
Theorem quickAddHandler_reads_name_only (r r' : Request) (y : Sys)
    (fl : list string) (vals vals' : Values) :
  Form_parsed r = Ok vals ->
  Form_parsed r' = Ok vals' ->
  Values_Get vals "name" = Values_Get vals' "name" ->
  serve quickAddHandler r y fl = serve quickAddHandler r' y fl.
Proof.
  intros Hf Hf' Hn.
  destruct (data_AddGame (quickAdd_game vals (time_Now y)) y) as [err y'] eqn:Ha.
  rewrite (quickAddHandler_run r y y' fl vals err Hf Ha).
  assert (Hg : quickAdd_game vals (time_Now y) = quickAdd_game vals' (time_Now y)).
  { unfold quickAdd_game. rewrite Hn. reflexivity. }
  rewrite Hg in Ha.
  rewrite (quickAddHandler_run r' y y' fl vals' err Hf' Ha).
  rewrite Hg. reflexivity.
Qed.

(** ** Delete *)

(** X7. [deleteHandler] never panics. It replies 200 exactly when
    [data.DeleteGame] returned no error and a number of rows other than
    zero; when [data.DeleteGame] returns an error, the reply is the 500
    error "Failed to delete a game." and the storage error is logged,
    once. *)
Theorem deleteHandler_replies (r : Request) (y : Sys) (fl : list string) :
  panicked (serve deleteHandler r y fl) = false /\
  (status (w (final (serve deleteHandler r y fl))) = Some StatusOK <->
   exists name rows,
     rows <> 0 /\
     In (CallDeleteGame name rows None) (trace (final (serve deleteHandler r y fl)))) /\
  (forall name rows e,
     In (CallDeleteGame name rows (Some e))
       (trace (final (serve deleteHandler r y fl))) ->
     w (final (serve deleteHandler r y fl)) =
       error_reply "Failed to delete a game." StatusInternalServerError /\
     logged (trace (final (serve deleteHandler r y fl))) = [e]).
Proof.
  destruct (Form_parsed r) as [vals|e] eqn:Hf.
  - destruct (data_DeleteGame (Values_Get vals "name") y) as [[rows err] y'] eqn:Hd.
    rewrite (deleteHandler_run r y y' fl vals rows err Hf Hd).
    destruct err as [e|]; simpl.
    + split; [reflexivity|]. split.
      * split; [discriminate|].
        intros (name & rows' & _ & [Hg|[Hg|[]]]); discriminate.
      * intros name rows' e' [Hg|[Hg|[]]]; try discriminate.
        injection Hg as _ _ ->. split; reflexivity.
    + split; [reflexivity|]. split.
      * destruct (Z.eqb_spec rows 0) as [->|Hr]; simpl.
        -- split; [discriminate|].
           intros (name & rows' & Hne & [Hg|[]]). injection Hg as _ <-.
           congruence.
        -- split; [|reflexivity]. intros _.
           exists (Values_Get vals "name"), rows. auto.
      * intros name rows' e' [Hg|[]]. discriminate.
  - rewrite (deleteHandler_malformed r y fl e Hf). simpl.
    split; [reflexivity|]. split.
    + split; [discriminate|]. intros (name & rows & _ & []).
    + intros name rows e' [].
Qed.

(** X8. On a parseable form [deleteHandler] makes exactly one storage
    call, [data.DeleteGame] with the first submitted value of [name]
    (the empty string when there is none), and nothing else of the
    request is read. *)
Theorem deleteHandler_reads_name_only (r r' : Request) (y : Sys)
    (fl : list string) (vals vals' : Values) :
  Form_parsed r = Ok vals ->
  Form_parsed r' = Ok vals' ->
  Values_Get vals "name" = Values_Get vals' "name" ->
  serve deleteHandler r y fl = serve deleteHandler r' y fl /\
  exists rows err,
    storage_calls (trace (final (serve deleteHandler r y fl))) =
      [CallDeleteGame (Values_Get vals "name") rows err].
Proof.
  intros Hf Hf' Hn.
  destruct (data_DeleteGame (Values_Get vals "name") y) as [[rows err] y'] eqn:Hd.
  rewrite (deleteHandler_run r y y' fl vals rows err Hf Hd).
  rewrite Hn in Hd.
  rewrite (deleteHandler_run r' y y' fl vals' rows err Hf' Hd).
  rewrite Hn. split; [reflexivity|].
  exists rows, err. simpl. destruct err; reflexivity.
Qed.

(** ** The suggest endpoint *)

(** X9. When the search and the encoding of its results both succeed,
    the reply of [suggestGamesHandler] is 200 with the content type
    [application/json] and exactly the encoded results as its body;
    nothing is logged. *)
Theorem suggestGamesHandler_success (r : Request) (y y' : Sys) (fl : list string)
    (q0 : string) (rest : list string) (results : Results) (b : string) :
  URL_Query r !! "q" = Some (q0 :: rest) ->
  giantbomb_Search ["id"; "name"; "platforms"] q0 10 1
    [giantbomb_ResourceTypeGame] y = (Ok results, y') ->
  json_Marshal results = Ok b ->
  w (final (serve suggestGamesHandler r y fl)) =
    {| header := <["Content-Type" := ["application/json"]]> ∅;
       status := Some StatusOK;
       body := b |} /\
  logged (trace (final (serve suggestGamesHandler r y fl))) = [] /\
  sys (final (serve suggestGamesHandler r y fl)) = y'.
Proof.
  intros Hq Hs Hj.
  rewrite (suggestGamesHandler_present_q r y y' fl q0 rest (Ok results) Hq Hs).
  simpl. rewrite Hj. split; [reflexivity|]. split; reflexivity.
Qed.

(** X10. When the search fails the reply is the 500 error "Search
    failed."; when the search succeeds and its results cannot be encoded
    the reply is the 500 error "Internal error.". In both cases the error
    is logged, once, and its text does not reach the client. *)
Theorem suggestGamesHandler_failure (r : Request) (y y' : Sys) (fl : list string)
    (q0 : string) (rest : list string) :
  URL_Query r !! "q" = Some (q0 :: rest) ->
  (forall e,
     giantbomb_Search ["id"; "name"; "platforms"] q0 10 1
       [giantbomb_ResourceTypeGame] y = (Err e, y') ->
     w (final (serve suggestGamesHandler r y fl)) =
       error_reply "Search failed." StatusInternalServerError /\
     logged (trace (final (serve suggestGamesHandler r y fl))) = [e]) /\
  (forall results e,
     giantbomb_Search ["id"; "name"; "platforms"] q0 10 1
       [giantbomb_ResourceTypeGame] y = (Ok results, y') ->
     json_Marshal results = Err e ->
     w (final (serve suggestGamesHandler r y fl)) =
       error_reply "Internal error." StatusInternalServerError /\
     logged (trace (final (serve suggestGamesHandler r y fl))) = [e]).
Proof.
  intros Hq. split.
  - intros e Hs.
    rewrite (suggestGamesHandler_present_q r y y' fl q0 rest (Err e) Hq Hs).
    split; reflexivity.
  - intros results e Hs Hj.
    rewrite (suggestGamesHandler_present_q r y y' fl q0 rest (Ok results) Hq Hs).
    simpl. rewrite Hj. split; reflexivity.
Qed.

(** X11. [suggestGamesHandler] reads nothing but the first value of [q]:
    further values of [q], other parameters, the method and the form make
    no difference, and neither does the value [giantbomb.FieldList] had
    before the request. *)
Theorem suggestGamesHandler_reads_first_q_only (r r' : Request) (y : Sys)
    (fl fl' : list string) (q0 : string) (rest rest' : list string) :
  URL_Query r !! "q" = Some (q0 :: rest) ->
  URL_Query r' !! "q" = Some (q0 :: rest') ->
  serve suggestGamesHandler r y fl = serve suggestGamesHandler r' y fl'.
Proof.
  intros Hq Hq'.
  destruct (giantbomb_Search ["id"; "name"; "platforms"] q0 10 1
              [giantbomb_ResourceTypeGame] y) as [res y'] eqn:Hs.
  rewrite (suggestGamesHandler_present_q r y y' fl q0 rest res Hq Hs).
  rewrite (suggestGamesHandler_present_q r' y y' fl' q0 rest' res Hq' Hs).
  reflexivity.
Qed.

(** X12. [suggestGamesHandler] overwrites the package variable
    [giantbomb.FieldList] with [id], [name], [platforms] whenever the
    request has a [q] key, whether or not the search then succeeds, and
    leaves it as it was when the key is missing. *)
Theorem suggestGamesHandler_FieldList (r : Request) (y : Sys) (fl : list string) :
  (URL_Query r !! "q" = None ->
   giantbomb_FieldList (final (serve suggestGamesHandler r y fl)) = fl) /\
  (forall vs, URL_Query r !! "q" = Some vs ->
   giantbomb_FieldList (final (serve suggestGamesHandler r y fl))
     = ["id"; "name"; "platforms"]).
Proof.
  split.
  - intros Hq. rewrite (suggestGamesHandler_missing_q r y fl Hq). reflexivity.
  - intros [|q0 rest] Hq.
    + rewrite (suggestGamesHandler_no_value r y fl Hq). reflexivity.
    + destruct (giantbomb_Search ["id"; "name"; "platforms"] q0 10 1
                  [giantbomb_ResourceTypeGame] y) as [res y'] eqn:Hs.
      rewrite (suggestGamesHandler_present_q r y y' fl q0 rest res Hq Hs).
      reflexivity.
Qed.

(** X13. [suggestGamesHandler] never panics on a query in which every
    key that is present has at least one value, as [r.URL.Query()] builds
    it: [query[0]] is then in range, whatever the search returns. *)
Theorem suggestGamesHandler_never_panics (r : Request) (y : Sys) (fl : list string) :
  (forall vs, URL_Query r !! "q" = Some vs -> vs <> []) ->
  panicked (serve suggestGamesHandler r y fl) = false.
Proof.
  intros Hne. destruct (URL_Query r !! "q") as [[|q0 rest]|] eqn:Hq.
  - exfalso. apply (Hne [] eq_refl). reflexivity.
  - destruct (giantbomb_Search ["id"; "name"; "platforms"] q0 10 1
                [giantbomb_ResourceTypeGame] y) as [res y'] eqn:Hs.
    rewrite (suggestGamesHandler_present_q r y y' fl q0 rest res Hq Hs).
    reflexivity.
  - rewrite (suggestGamesHandler_missing_q r y fl Hq). reflexivity.
Qed.

(** ** What the handlers never do *)

Lemma suggestGamesHandler_no_storage (r : Request) (y : Sys) (fl : list string) :
  storage_calls (trace (final (serve suggestGamesHandler r y fl))) = [].
Proof.
  destruct (URL_Query r !! "q") as [[|q0 rest]|] eqn:Hq.
  - rewrite (suggestGamesHandler_no_value r y fl Hq). reflexivity.
  - destruct (giantbomb_Search ["id"; "name"; "platforms"] q0 10 1
                [giantbomb_ResourceTypeGame] y) as [res y'] eqn:Hs.
    rewrite (suggestGamesHandler_present_q r y y' fl q0 rest res Hq Hs).
    simpl. destruct res as [results|e]; [|reflexivity].
    destruct (json_Marshal results); reflexivity.
  - rewrite (suggestGamesHandler_missing_q r y fl Hq). reflexivity.
Qed.

Lemma addHandler_GET_no_storage (r : Request) (y : Sys) (fl : list string) :
  Method r = "GET" ->
  storage_calls (trace (final (serve addHandler r y fl))) = [].
Proof.
  intros Hm. rewrite (addHandler_GET_run r y fl Hm).
  destruct (template_ParseFiles ["templates/add.html"; "templates/base.html"] y);
    reflexivity.
Qed.

(** X14. [suggestGamesHandler] never calls the storage; [addHandler],
    [quickAddHandler] and [deleteHandler] never call the search provider,
    never change [giantbomb.FieldList], and call the storage at most
    once. *)
Theorem handlers_keep_to_their_service (r : Request) (y : Sys) (fl : list string) :
  storage_calls (trace (final (serve suggestGamesHandler r y fl))) = [] /\
  (forall h,
     h = addHandler \/ h = quickAddHandler \/ h = deleteHandler ->
     search_calls (trace (final (serve h r y fl))) = [] /\
     giantbomb_FieldList (final (serve h r y fl)) = fl /\
     (length (storage_calls (trace (final (serve h r y fl)))) <= 1)%nat).
Proof.
  split.
  - apply suggestGamesHandler_no_storage.
  - intros h [->|[->| ->]].
    + destruct (String.eqb_spec (Method r) "GET") as [Hm|Hm].
      * rewrite (addHandler_GET_run r y fl Hm).
        destruct (template_ParseFiles ["templates/add.html"; "templates/base.html"] y);
          simpl; auto.
      * apply String.eqb_neq in Hm.
        destruct (Form_parsed r) as [vals|e] eqn:Hf.
        -- destruct (addHandler_cases r y fl vals Hm Hf)
             as [Hb Hrun | v rest e' Hb Hv Hp Hrun | v rest t err y' Hb Hv Ha Hrun];
             rewrite Hrun; simpl; auto.
        -- rewrite (addHandler_malformed r y fl e Hm Hf). simpl. auto.
    + destruct (Form_parsed r) as [vals|e] eqn:Hf.
      * destruct (data_AddGame (quickAdd_game vals (time_Now y)) y)
          as [err y'] eqn:Ha.
        rewrite (quickAddHandler_run r y y' fl vals err Hf Ha).
        destruct err; simpl; auto.
      * rewrite (quickAddHandler_malformed r y fl e Hf). simpl. auto.
    + destruct (Form_parsed r) as [vals|e] eqn:Hf.
      * destruct (data_DeleteGame (Values_Get vals "name") y)
          as [[rows err] y'] eqn:Hd.
        rewrite (deleteHandler_run r y y' fl vals rows err Hf Hd).
        destruct err; simpl; auto.
      * rewrite (deleteHandler_malformed r y fl e Hf). simpl. auto.
Qed.

End Replies.

(** * The listing and detail pages *)

Section PageReplies.
Context {TP : TimePkg} {EX : Externals} {PG : PagesPkg}.

(** [executeTemplates] at page data, on a fresh writer. *)
Lemma executeTemplates_page_run (data : PageData) (filenames : list string)
    (y : Sys) (tr : list Event) (fl : list string) :
  executeTemplates_page data filenames
    {| sys := y; w := ResponseWriter_new; trace := tr; giantbomb_FieldList := fl |}
  = match template_ParseFiles (filenames ++ ["templates/base.html"]) y with
    | Err e =>
      Returned (Some e)
        {| sys := y; w := ResponseWriter_new;
           trace := tr ++ [CallParseFiles (filenames ++ ["templates/base.html"]) true];
           giantbomb_FieldList := fl |}
    | Ok t =>
      Returned (snd (Template_ExecuteTemplate_page t "base" data))
        {| sys := y; w := rendered (fst (Template_ExecuteTemplate_page t "base" data));
           trace := tr ++ [CallParseFiles (filenames ++ ["templates/base.html"]) false];
           giantbomb_FieldList := fl |}
    end.
Proof.
  unfold executeTemplates_page, ParseFiles, bind, get_sys, emit, ret. simpl.
  destruct (template_ParseFiles (filenames ++ ["templates/base.html"]) y) as [t|e];
    simpl; [|reflexivity].
  unfold ExecuteTemplate_page, rendered.
  destruct (Template_ExecuteTemplate_page t "base" data) as [chunks err].
  reflexivity.
Qed.

(** What [data.GetAllGames] leaves behind. *)
Lemma GetAllGames_run (s : State) (res : list Game * option error) (y' : Sys) :
  data_GetAllGames (sys s) = (res, y') ->
  GetAllGames s =
  Returned res
    {| sys := y'; w := w s; trace := trace s;
       giantbomb_FieldList := giantbomb_FieldList s |}.
Proof.
  intros H. unfold GetAllGames, bind, get_sys, put_sys, ret. rewrite H.
  reflexivity.
Qed.

(** [indexHandler] when [data.GetAllGames] fails. *)
Lemma indexHandler_run_failure (r : Request) (y y1 : Sys) (fl : list string)
    (games : list Game) (e : error) :
  data_GetAllGames y = ((games, Some e), y1) ->
  serve indexHandler r y fl =
  Returned tt
    {| sys := y1;
       w := error_reply "Failed to get games." StatusInternalServerError;
       trace := [CallLog e];
       giantbomb_FieldList := fl |}.
Proof.
  intros Hg. unfold serve, indexHandler. unfold bind at 1.
  erewrite GetAllGames_run by exact Hg. reflexivity.
Qed.

(** [indexHandler] when [data.GetAllGames] succeeds. *)
Lemma indexHandler_run_listed (r : Request) (y y1 : Sys) (fl : list string)
    (games : list Game) :
  data_GetAllGames y = ((games, None), y1) ->
  serve indexHandler r y fl =
  match template_ParseFiles ["templates/index.html"; "templates/base.html"] y1 with
  | Err e =>
    Returned tt
      {| sys := y1; w := error_reply e StatusInternalServerError;
         trace := [CallParseFiles ["templates/index.html"; "templates/base.html"] true];
         giantbomb_FieldList := fl |}
  | Ok t =>
    Returned tt
      {| sys := y1;
         w := match snd (Template_ExecuteTemplate_page t "base" (Games_data games)) with
              | Some e =>
                Error_writer e StatusInternalServerError
                  (rendered (fst (Template_ExecuteTemplate_page t "base"
                                    (Games_data games))))
              | None =>
                rendered (fst (Template_ExecuteTemplate_page t "base"
                                 (Games_data games)))
              end;
         trace := [CallParseFiles ["templates/index.html"; "templates/base.html"] false];
         giantbomb_FieldList := fl |}
  end.
Proof.
  intros Hg. unfold serve, indexHandler. unfold bind at 1.
  erewrite GetAllGames_run by exact Hg. simpl.
  unfold bind. rewrite executeTemplates_page_run. simpl app.
  destruct (template_ParseFiles ["templates/index.html"; "templates/base.html"] y1)
    as [t|e]; [|reflexivity].
  destruct (snd (Template_ExecuteTemplate_page t "base" (Games_data games)));
    reflexivity.
Qed.

(** [gameHandler] on an id that [strconv.Atoi] accepts. *)
Lemma gameHandler_run_id (vars : gmap string string) (r : Request) (y : Sys)
    (fl : list string) (id : Z) :
  strconv_Atoi (Vars_index vars "id") = Ok id ->
  gameHandler vars r (initial y fl) =
  match template_ParseFiles ["templates/game.html"; "templates/base.html"] y with
  | Err e =>
    Returned tt
      {| sys := y;
         w := error_reply "Failed to execute template." StatusInternalServerError;
         trace := [CallParseFiles ["templates/game.html"; "templates/base.html"] true];
         giantbomb_FieldList := fl |}
  | Ok t =>
    Returned tt
      {| sys := y;
         w := match snd (Template_ExecuteTemplate_page t "base" (ID_data id)) with
              | Some _ =>
                Error_writer "Failed to execute template." StatusInternalServerError
                  (rendered (fst (Template_ExecuteTemplate_page t "base" (ID_data id))))
              | None =>
                rendered (fst (Template_ExecuteTemplate_page t "base" (ID_data id)))
              end;
         trace := [CallParseFiles ["templates/game.html"; "templates/base.html"] false];
         giantbomb_FieldList := fl |}
  end.
Proof.
  intros Ha. unfold gameHandler, initial. rewrite Ha.
  unfold bind at 1. rewrite executeTemplates_page_run. simpl app.
  destruct (template_ParseFiles ["templates/game.html"; "templates/base.html"] y)
    as [t|e]; [|reflexivity].
  destruct (snd (Template_ExecuteTemplate_page t "base" (ID_data id)));
    reflexivity.
Qed.

(** [gameHandler] on an id that [strconv.Atoi] rejects. *)
Lemma gameHandler_run_bad_id (vars : gmap string string) (r : Request) (y : Sys)
    (fl : list string) (e : error) :
  strconv_Atoi (Vars_index vars "id") = Err e ->
  gameHandler vars r (initial y fl) =
  Returned tt
    {| sys := y;
       w := error_reply "Failed to parse game ID." StatusInternalServerError;
       trace := [];
       giantbomb_FieldList := fl |}.
Proof.
  intros Ha. unfold gameHandler, initial. rewrite Ha. reflexivity.
Qed.

(** X15. When [data.GetAllGames] fails, [indexHandler] replies with the
    500 error "Failed to get games.", logs the storage error and parses
    no template; whatever list came with the error is dropped. *)
Theorem indexHandler_storage_failure (r : Request) (y y1 : Sys) (fl : list string)
    (games : list Game) (e : error) :
  data_GetAllGames y = ((games, Some e), y1) ->
  w (final (serve indexHandler r y fl)) =
    error_reply "Failed to get games." StatusInternalServerError /\
  trace (final (serve indexHandler r y fl)) = [CallLog e].
Proof.
  intros Hg. rewrite (indexHandler_run_failure r y y1 fl games e Hg).
  split; reflexivity.
Qed.

(** X16. When the listing page cannot be rendered before any write
    (its files do not parse, or the template fails before its first
    write), [indexHandler] replies 500 with the text of the template
    error itself as the body, and does not log it. *)
Theorem indexHandler_template_error_is_sent (r : Request) (y y1 : Sys)
    (fl : list string) (games : list Game) :
  data_GetAllGames y = ((games, None), y1) ->
  (forall e,
     template_ParseFiles ["templates/index.html"; "templates/base.html"] y1 = Err e ->
     w (final (serve indexHandler r y fl)) = error_reply e StatusInternalServerError /\
     logged (trace (final (serve indexHandler r y fl))) = []) /\
  (forall t e,
     template_ParseFiles ["templates/index.html"; "templates/base.html"] y1 = Ok t ->
     Template_ExecuteTemplate_page t "base" (Games_data games) = ([], Some e) ->
     w (final (serve indexHandler r y fl)) = error_reply e StatusInternalServerError /\
     logged (trace (final (serve indexHandler r y fl))) = []).
Proof.
  intros Hg. rewrite (indexHandler_run_listed r y y1 fl games Hg). split.
  - intros e He. rewrite He. split; reflexivity.
  - intros t e Ht Hx. rewrite Ht, Hx. split; reflexivity.
Qed.

(** X17. On success [indexHandler] hands the template exactly the list
    [data.GetAllGames] returned, in the world that call left, and the
    reply is what the template wrote: the body is the bytes of its
    writes, and the status is 200 as soon as it made one write, be it of
    an empty slice; the handler itself writes no status line, so none is
    written when the template made no write. *)
Theorem indexHandler_renders_all_games (r : Request) (y y1 : Sys)
    (fl : list string) (games : list Game) (t : Template) (chunks : list string) :
  data_GetAllGames y = ((games, None), y1) ->
  template_ParseFiles ["templates/index.html"; "templates/base.html"] y1 = Ok t ->
  Template_ExecuteTemplate_page t "base" (Games_data games) = (chunks, None) ->
  body (w (final (serve indexHandler r y fl))) = written chunks /\
  status (w (final (serve indexHandler r y fl))) =
    match chunks with
    | [] => None
    | _ :: _ => Some StatusOK
    end /\
  sys (final (serve indexHandler r y fl)) = y1.
Proof.
  intros Hg Ht Hx. rewrite (indexHandler_run_listed r y y1 fl games Hg).
  rewrite Ht, Hx. simpl.
  destruct chunks as [|b chunks].
  - split; [reflexivity|]. split; reflexivity.
  - rewrite rendered_cons. split; [reflexivity|]. split; reflexivity.
Qed.

(** X18. [gameHandler] looks nothing up: whatever the id, it never
    panics, leaves the outside world as it was, and its only call is the
    parse of [templates/game.html] with [templates/base.html], made
    exactly when [strconv.Atoi] accepts the id. *)
Theorem gameHandler_looks_nothing_up (vars : gmap string string) (r : Request)
    (y : Sys) (fl : list string) :
  panicked (gameHandler vars r (initial y fl)) = false /\
  sys (final (gameHandler vars r (initial y fl))) = y /\
  match strconv_Atoi (Vars_index vars "id") with
  | Ok _ =>
    exists failed,
      trace (final (gameHandler vars r (initial y fl))) =
        [CallParseFiles ["templates/game.html"; "templates/base.html"] failed]
  | Err _ => trace (final (gameHandler vars r (initial y fl))) = []
  end.
Proof.
  destruct (strconv_Atoi (Vars_index vars "id")) as [id|e] eqn:Ha.
  - rewrite (gameHandler_run_id vars r y fl id Ha).
    destruct (template_ParseFiles ["templates/game.html"; "templates/base.html"] y);
      simpl; eauto.
  - rewrite (gameHandler_run_bad_id vars r y fl e Ha). simpl. auto.
Qed.

(** X19. An id that [strconv.Atoi] rejects (the empty string of a missing
    route variable included) makes [gameHandler] reply with the 500
    error "Failed to parse game ID.", not with a 400. *)
Theorem gameHandler_bad_id_is_server_error (vars : gmap string string)
    (r : Request) (y : Sys) (fl : list string) (e : error) :
  strconv_Atoi (Vars_index vars "id") = Err e ->
  w (final (gameHandler vars r (initial y fl))) =
    error_reply "Failed to parse game ID." StatusInternalServerError /\
  status (w (final (gameHandler vars r (initial y fl)))) <> Some StatusBadRequest.
Proof.
  intros Ha. rewrite (gameHandler_run_bad_id vars r y fl e Ha).
  split; [reflexivity | discriminate].
Qed.

End PageReplies.

(** * The router *)

Lemma strip_prefix_Some (p s rest : string) :
  strip_prefix p s = Some rest <-> s = p ++ rest.
Proof.
  revert s. induction p as [|a p IH]; intros s; simpl.
  - split; [intros [= ->]; reflexivity | intros ->; reflexivity].
  - destruct s as [|b s]; [split; discriminate|].
    destruct (Ascii.eqb_spec a b) as [->|Hab].
    + rewrite IH. split; [intros ->; reflexivity | intros [= ->]; reflexivity].
    + split; [discriminate | intros [= Hb _]; congruence].
Qed.

Lemma match_path_exact (p path : string) (vars : gmap string string) :
  match_path (exact_path p) path = Some vars <-> path = p /\ vars = ∅.
Proof.
  simpl. destruct (String.eqb_spec path p) as [->|Hne].
  - split; [intros [= <-]; auto | intros [_ ->]; reflexivity].
  - split; [discriminate | intros [Hp _]; congruence].
Qed.

Lemma match_path_games_id (path : string) (vars : gmap string string) :
  match_path games_id_path path = Some vars <->
  exists id, path = "/games/" ++ id /\ digits1 id = true /\ vars = {[ "id" := id ]}.
Proof.
  unfold match_path. split.
  - destruct (strip_prefix "/games/" path) as [id|] eqn:Hs; [|discriminate].
    destruct (digits1 id) eqn:Hd; [|discriminate].
    intros [= <-]. exists id. apply strip_prefix_Some in Hs. auto.
  - intros (id & Hp & Hd & ->).
    apply strip_prefix_Some in Hp. rewrite Hp, Hd. reflexivity.
Qed.

Lemma match_path_prefix (p path : string) (vars : gmap string string) :
  match_path (prefix_path p) path = Some vars <->
  (exists rest, path = p ++ rest) /\ vars = ∅.
Proof.
  unfold match_path. split.
  - destruct (strip_prefix p path) as [rest|] eqn:Hs; [|discriminate].
    intros [= <-]. apply strip_prefix_Some in Hs. eauto.
  - intros [[rest Hp] ->]. apply strip_prefix_Some in Hp. rewrite Hp. reflexivity.
Qed.

(** No two routes of [makeRouter] match the same path. *)
Lemma makeRouter_exclusive (rt1 rt2 : Route) (path : string) :
  In rt1 makeRouter -> In rt2 makeRouter ->
  is_Some (match_path (template rt1) path) ->
  is_Some (match_path (template rt2) path) ->
  rt1 = rt2.
Proof.
  intros H1 H2 [v1 M1] [v2 M2]. unfold makeRouter in H1, H2. simpl in H1, H2.
  repeat (destruct H1 as [<-|H1]; [|]); try contradiction;
    repeat (destruct H2 as [<-|H2]; [|]); try contradiction;
    try reflexivity; exfalso; simpl template in M1, M2;
    repeat match goal with
    | H : match_path (exact_path _) _ = Some _ |- _ =>
      apply match_path_exact in H; destruct H as [-> _]
    end;
    try (vm_compute in M1; discriminate M1);
    try (vm_compute in M2; discriminate M2);
    repeat match goal with
    | H : match_path games_id_path _ = Some _ |- _ =>
      apply match_path_games_id in H; destruct H as (id & -> & _ & _)
    | H : match_path (prefix_path _) _ = Some _ |- _ =>
      apply match_path_prefix in H; destruct H as [[rest H] _]
    end;
    try discriminate.
Qed.

(** When no two routes match the same path, [Match] finds a route
    wherever it stands in the list. *)
Lemma Match_exclusive (routes : list Route) (method path : string)
    (h : HandlerName) (vars : gmap string string) :
  (forall rt1 rt2, In rt1 routes -> In rt2 routes ->
     is_Some (match_path (template rt1) path) ->
     is_Some (match_path (template rt2) path) -> rt1 = rt2) ->
  Match routes method path = Some (h, vars) <->
  exists rt, In rt routes /\ handler rt = h /\
    match_path (template rt) path = Some vars /\
    match_method (methods rt) method = true.
Proof.
  induction routes as [|rt0 routes IH]; intros Hex; simpl.
  - split; [discriminate | intros (rt & [] & _)].
  - assert (Hex' : forall rt1 rt2, In rt1 routes -> In rt2 routes ->
              is_Some (match_path (template rt1) path) ->
              is_Some (match_path (template rt2) path) -> rt1 = rt2).
    { intros rt1 rt2 H1 H2. apply Hex; right; assumption. }
    specialize (IH Hex').
    destruct (match_path (template rt0) path) as [vars0|] eqn:M0.
    + destruct (match_method (methods rt0) method) eqn:Hm.
      * split.
        -- intros [= <- <-]. exists rt0. auto.
        -- intros (rt & Hin & <- & Mp & _).
           assert (rt0 = rt) as <-.
           { apply Hex;
               [left; reflexivity | exact Hin | rewrite M0; eauto | rewrite Mp; eauto]. }
           rewrite M0 in Mp. injection Mp as <-. reflexivity.
      * rewrite IH. split.
        -- intros (rt & Hin & Hh & Mp & Hmm). exists rt. auto.
        -- intros (rt & [<-|Hin] & Hh & Mp & Hmm); [congruence|].
           exists rt. auto.
    + rewrite IH. split.
      * intros (rt & Hin & Hh & Mp & Hmm). exists rt. auto.
      * intros (rt & [<-|Hin] & Hh & Mp & Hmm); [congruence|].
        exists rt. auto.
Qed.

(** X20. No path is matched by two routes of [makeRouter] (the id route
    does not capture [/games/add], [/games/quick-add] or [/games/delete]),
    so the order in which the routes are registered is immaterial: every
    reordering of them selects the same handler for every request. *)
Theorem makeRouter_order_immaterial (routes : list Route) (method path : string) :
  Permutation makeRouter routes ->
  Match routes method path = Match makeRouter method path.
Proof.
  intros Hperm.
  assert (Hex : forall rt1 rt2, In rt1 routes -> In rt2 routes ->
            is_Some (match_path (template rt1) path) ->
            is_Some (match_path (template rt2) path) -> rt1 = rt2).
  { intros rt1 rt2 H1 H2. apply makeRouter_exclusive.
    - apply (Permutation_in _ (Permutation_sym Hperm) H1).
    - apply (Permutation_in _ (Permutation_sym Hperm) H2). }
  assert (Hiff : forall h vars,
            Match routes method path = Some (h, vars) <->
            Match makeRouter method path = Some (h, vars)).
  { intros h vars. rewrite (Match_exclusive routes method path h vars Hex).
    rewrite (Match_exclusive makeRouter method path h vars
               (fun rt1 rt2 => makeRouter_exclusive rt1 rt2 path)).
    split; intros (rt & Hin & Hrest); exists rt; split; auto.
    - apply (Permutation_in _ (Permutation_sym Hperm) Hin).
    - apply (Permutation_in _ Hperm Hin). }
  destruct (Match routes method path) as [[h vars]|] eqn:E1.
  - symmetry. apply Hiff. reflexivity.
  - destruct (Match makeRouter method path) as [[h vars]|] eqn:E2; [|reflexivity].
    pose proof (proj2 (Hiff h vars) eq_refl) as Hc. discriminate Hc.
Qed.

Lemma match_method_POST (method : string) :
  match_method ["POST"] method = true <-> method = "POST".
Proof.
  simpl. rewrite orb_false_r. apply String.eqb_eq.
Qed.

Lemma match_method_GET_POST (method : string) :
  match_method ["GET"; "POST"] method = true <-> method = "GET" \/ method = "POST".
Proof.
  simpl. rewrite orb_false_r, orb_true_iff, !String.eqb_eq. reflexivity.
Qed.

(** The routes of [makeRouter], one by one. *)
Lemma Match_makeRouter (method path : string) (h : HandlerName)
    (vars : gmap string string) :
  Match makeRouter method path = Some (h, vars) <->
  exists rt, In rt makeRouter /\ handler rt = h /\
    match_path (template rt) path = Some vars /\
    match_method (methods rt) method = true.
Proof.
  apply Match_exclusive. intros rt1 rt2. apply makeRouter_exclusive.
Qed.

(** X21. The router runs [addHandler] only for a GET or a POST of
    exactly [/games/add], and [quickAddHandler] and [deleteHandler] only
    for a POST of exactly [/games/quick-add] and [/games/delete]; each of
    these requests does reach its handler, with no route variables. *)
Theorem makeRouter_form_routes (method path : string) (vars : gmap string string) :
  (Match makeRouter method path = Some (h_add, vars) <->
   path = "/games/add" /\ (method = "GET" \/ method = "POST") /\ vars = ∅) /\
  (Match makeRouter method path = Some (h_quickAdd, vars) <->
   path = "/games/quick-add" /\ method = "POST" /\ vars = ∅) /\
  (Match makeRouter method path = Some (h_delete, vars) <->
   path = "/games/delete" /\ method = "POST" /\ vars = ∅).
Proof.
  rewrite !Match_makeRouter. unfold makeRouter. split; [|split]; split.
  - intros (rt & Hin & Hh & Mp & Mm). simpl in Hin.
    repeat (destruct Hin as [<-|Hin]; [try discriminate Hh|]);
      try contradiction.
    apply match_path_exact in Mp. destruct Mp as [-> ->].
    apply match_method_GET_POST in Mm. auto.
  - intros (-> & Hm & ->).
    exists {| template := exact_path "/games/add"; methods := ["GET"; "POST"];
              handler := h_add |}.
    split; [simpl; tauto|]. split; [reflexivity|]. split; [reflexivity|].
    apply match_method_GET_POST. exact Hm.
  - intros (rt & Hin & Hh & Mp & Mm). simpl in Hin.
    repeat (destruct Hin as [<-|Hin]; [try discriminate Hh|]);
      try contradiction.
    apply match_path_exact in Mp. destruct Mp as [-> ->].
    apply match_method_POST in Mm. auto.
  - intros (-> & -> & ->).
    exists {| template := exact_path "/games/quick-add"; methods := ["POST"];
              handler := h_quickAdd |}.
    split; [simpl; tauto|]. repeat split.
  - intros (rt & Hin & Hh & Mp & Mm). simpl in Hin.
    repeat (destruct Hin as [<-|Hin]; [try discriminate Hh|]);
      try contradiction.
    apply match_path_exact in Mp. destruct Mp as [-> ->].
    apply match_method_POST in Mm. auto.
  - intros (-> & -> & ->).
    exists {| template := exact_path "/games/delete"; methods := ["POST"];
              handler := h_delete |}.
    split; [simpl; tauto|]. repeat split.
Qed.

(** X22. The router runs [gameHandler] exactly for the paths [/games/]
    followed by one or more decimal digits, with any method, and the
    route variable [id] it passes is that digit string; so the id that
    [gameHandler] reads is never empty and never signed. *)
Theorem makeRouter_game_route (method path : string) (vars : gmap string string) :
  Match makeRouter method path = Some (h_game, vars) <->
  exists id,
    path = "/games/" ++ id /\ digits1 id = true /\
    vars = {[ "id" := id ]} /\ Vars_index vars "id" = id.
Proof.
  rewrite Match_makeRouter. unfold makeRouter. split.
  - intros (rt & Hin & Hh & Mp & Mm). simpl in Hin.
    repeat (destruct Hin as [<-|Hin]; [try discriminate Hh|]);
      try contradiction.
    apply match_path_games_id in Mp. destruct Mp as (id & -> & Hd & ->).
    exists id. split; [reflexivity|]. split; [exact Hd|]. split; [reflexivity|].
    unfold Vars_index. rewrite lookup_singleton_eq. reflexivity.
  - intros (id & -> & Hd & -> & _).
    exists {| template := games_id_path; methods := []; handler := h_game |}.
    split; [simpl; tauto|]. split; [reflexivity|]. split; [|reflexivity].
    apply match_path_games_id. exists id. auto.
Qed.

(** * Requests through the router *)

Section Routed.
Context {TP : TimePkg} {EX : Externals} {PG : PagesPkg}.

Lemma indexHandler_no_storage (r : Request) (y : Sys) (fl : list string) :
  storage_calls (trace (final (serve indexHandler r y fl))) = [].
Proof.
  destruct (data_GetAllGames y) as [[games [e|]] y1] eqn:Hg.
  - rewrite (indexHandler_run_failure r y y1 fl games e Hg). reflexivity.
  - rewrite (indexHandler_run_listed r y y1 fl games Hg).
    destruct (template_ParseFiles ["templates/index.html"; "templates/base.html"] y1);
      reflexivity.
Qed.

Lemma gameHandler_no_storage (vars : gmap string string) (r : Request) (y : Sys)
    (fl : list string) :
  storage_calls (trace (final (gameHandler vars r (initial y fl)))) = [].
Proof.
  destruct (strconv_Atoi (Vars_index vars "id")) as [id|e] eqn:Ha.
  - rewrite (gameHandler_run_id vars r y fl id Ha).
    destruct (template_ParseFiles ["templates/game.html"; "templates/base.html"] y);
      reflexivity.
  - rewrite (gameHandler_run_bad_id vars r y fl e Ha). reflexivity.
Qed.

Lemma Match_POST_only (method path : string) (h : HandlerName)
    (vars : gmap string string) :
  Match makeRouter method path = Some (h, vars) ->
  h = h_quickAdd \/ h = h_delete ->
  method = "POST".
Proof.
  rewrite Match_makeRouter. unfold makeRouter.
  intros (rt & Hin & Hh & Mp & Mm) Hor. simpl in Hin.
  repeat (destruct Hin as [<-|Hin];
          [try (destruct Hor as [->| ->]; discriminate Hh)|]);
    try contradiction;
    apply match_method_POST in Mm; exact Mm.
Qed.

(** X23. A GET is safe: whatever the path, the handler the router runs
    for a GET request never calls [data.AddGame] or [data.DeleteGame]. *)
Theorem GET_never_writes (r : Request) (path : string) (h : M unit) (y : Sys)
    (fl : list string) :
  Method r = "GET" ->
  route_handler r path = Some h ->
  storage_calls (trace (final (h (initial y fl)))) = [].
Proof.
  intros Hm. unfold route_handler.
  destruct (Match makeRouter (Method r) path) as [[hn vars]|] eqn:E;
    [|discriminate].
  destruct hn; intros [= <-].
  - apply (indexHandler_no_storage r y fl).
  - apply (gameHandler_no_storage vars r y fl).
  - apply (addHandler_GET_no_storage r y fl Hm).
  - pose proof (Match_POST_only _ _ _ _ E (or_introl eq_refl)) as Hp.
    rewrite Hm in Hp. discriminate Hp.
  - pose proof (Match_POST_only _ _ _ _ E (or_intror eq_refl)) as Hp.
    rewrite Hm in Hp. discriminate Hp.
  - apply (suggestGamesHandler_no_storage r y fl).
Qed.

End Routed.

(** * Further scenarios *)

Section FurtherScenarios.
#[local] Existing Instance Sim.time_pkg.
#[local] Existing Instance Script.externals.
#[local] Existing Instance Script.pages.

(** The add form, asked for with and without a query string. *)
Lemma addHandler_GET_only_renders_witness :
  Script.run addHandler Script.get_page Script.fine
    = Script.run addHandler Script.suggest_two Script.fine /\
  panicked (Script.run addHandler Script.get_page Script.fine) = false /\
  sys (final (Script.run addHandler Script.get_page Script.fine)) = Script.fine /\
  exists failed,
    trace (final (Script.run addHandler Script.get_page Script.fine)) =
      [CallParseFiles ["templates/add.html"; "templates/base.html"] failed].
Proof.
  apply (addHandler_GET_only_renders (EX := Script.externals)
           Script.get_page Script.suggest_two Script.fine [] eq_refl eq_refl).
Defined.

(** The add form when the files are missing, when the template fails
    before its first write, when it fails after writing [<html>], and
    when it fails after a write of an empty slice. *)
Lemma addHandler_GET_template_failure_witness :
  w (final (Script.run addHandler Script.get_page Script.no_templates)) =
    error_reply "Failed to execute template." StatusInternalServerError /\
  w (final (Script.run addHandler Script.get_page Script.early_template_error)) =
    error_reply "Failed to execute template." StatusInternalServerError /\
  (status (w (final (Script.run addHandler Script.get_page
                       Script.late_template_error))) = Some StatusOK /\
   body (w (final (Script.run addHandler Script.get_page
                     Script.late_template_error))) =
     "<html>" ++ "Failed to execute template." ++ String "010" "") /\
  (status (w (final (Script.run addHandler Script.get_page
                       Script.empty_write_template_error))) = Some StatusOK /\
   body (w (final (Script.run addHandler Script.get_page
                     Script.empty_write_template_error))) =
     "Failed to execute template." ++ String "010" "").
Proof.
  split; [|split; [|split]].
  - apply (proj1 (addHandler_GET_template_failure (EX := Script.externals)
                    Script.get_page Script.no_templates [] eq_refl)
             "open templates/base.html: no such file" eq_refl).
  - apply (proj1 (proj2 (addHandler_GET_template_failure (EX := Script.externals)
                           Script.get_page Script.early_template_error [] eq_refl)
                    ([], Some "template: no such field") []
                    "template: no such field" eq_refl eq_refl) eq_refl).
  - apply (proj2 (proj2 (addHandler_GET_template_failure (EX := Script.externals)
                           Script.get_page Script.late_template_error [] eq_refl)
                    (["<html>"], Some "template: no such field") ["<html>"]
                    "template: no such field" eq_refl eq_refl)).
    discriminate.
  - apply (proj2 (proj2 (addHandler_GET_template_failure (EX := Script.externals)
                           Script.get_page Script.empty_write_template_error []
                           eq_refl)
                    ([""], Some "template: no such field") [""]
                    "template: no such field" eq_refl eq_refl)).
    discriminate.
Defined.

(** Full add of Hades while the store is down. *)
Lemma addHandler_insert_failure_witness :
  w (final (Script.run addHandler Sim.add_hades Script.store_down)) =
    error_reply "Failed to add a game." StatusInternalServerError /\
  trace (final (Script.run addHandler Sim.add_hades Script.store_down)) =
    [CallAddGame
       (add_game_of (Form Sim.add_hades)
          {| Sim.year := 2020; Sim.month := 12; Sim.day := 10 |})
       (Some "database is down")].
Proof.
  apply (addHandler_insert_failure (EX := Script.externals)
           Sim.add_hades Script.store_down [] (Form Sim.add_hades)
           (add_game_of (TP := Sim.time_pkg) (Form Sim.add_hades)
              {| Sim.year := 2020; Sim.month := 12; Sim.day := 10 |})
           "database is down" eq_refl eq_refl).
  left. reflexivity.
Defined.

(** Full add of Hades: a 307, and one call. *)
Lemma addHandler_POST_replies_witness :
  status (w (final (Script.run addHandler Sim.add_hades Script.fine)))
    = Some StatusTemporaryRedirect /\
  (trace (final (Script.run addHandler Sim.add_hades Script.fine)) = [] \/
   exists g err,
     trace (final (Script.run addHandler Sim.add_hades Script.fine))
       = [CallAddGame g err]).
Proof.
  destruct (addHandler_POST_replies (EX := Script.externals)
              Sim.add_hades Script.fine [] eq_refl) as (_ & Hstatus & Hcalls).
  split; [|exact Hcalls].
  destruct (Hstatus eq_refl) as [H|[H|H]]; [exact H | discriminate H | discriminate H].
Defined.

(** Quick-add of Celeste: 200 when the store answers, the error logged
    when it does not. *)
Lemma quickAddHandler_replies_witness :
  status (w (final (Script.run quickAddHandler Sim.quick_add_celeste Script.fine)))
    = Some StatusOK /\
  logged (trace (final (Script.run quickAddHandler Sim.quick_add_celeste
                          Script.store_down))) = ["database is down"].
Proof.
  split.
  - apply (proj1 (proj2 (quickAddHandler_replies (EX := Script.externals)
                           Sim.quick_add_celeste Script.fine []))).
    exists (quickAdd_game (TP := Sim.time_pkg) (Form Sim.quick_add_celeste)
              (Script.clock Script.fine)).
    right. left. reflexivity.
  - apply (proj2 (proj2 (proj2 (quickAddHandler_replies (EX := Script.externals)
                                  Sim.quick_add_celeste Script.store_down [])))
             (quickAdd_game (TP := Sim.time_pkg) (Form Sim.quick_add_celeste)
                (Script.clock Script.fine))
             "database is down").
    right. left. reflexivity.
Defined.

(** Quick-add of Celeste with and without further fields. *)
Lemma quickAddHandler_reads_name_only_witness :
  Script.run quickAddHandler Sim.quick_add_celeste Script.fine
    = Script.run quickAddHandler Script.celeste_with_extras Script.fine.
Proof.
  apply (quickAddHandler_reads_name_only (EX := Script.externals)
           Sim.quick_add_celeste Script.celeste_with_extras Script.fine []
           (Form Sim.quick_add_celeste) (Form Script.celeste_with_extras)
           eq_refl eq_refl eq_refl).
Defined.

(** Delete of Celeste when one row is affected. *)
Lemma deleteHandler_replies_witness :
  status (w (final (Script.run deleteHandler Sim.delete_celeste Script.fine)))
    = Some StatusOK.
Proof.
  apply (proj1 (proj2 (deleteHandler_replies (EX := Script.externals)
                         Sim.delete_celeste Script.fine []))).
  exists "Celeste", 1. split; [discriminate|]. left. reflexivity.
Defined.

(** Delete of Celeste with and without further fields. *)
Lemma deleteHandler_reads_name_only_witness :
  Script.run deleteHandler Sim.delete_celeste Script.fine
    = Script.run deleteHandler Script.celeste_with_extras Script.fine /\
  exists rows err,
    storage_calls (trace (final (Script.run deleteHandler Sim.delete_celeste
                                   Script.fine)))
      = [CallDeleteGame "Celeste" rows err].
Proof.
  apply (deleteHandler_reads_name_only (EX := Script.externals)
           Sim.delete_celeste Script.celeste_with_extras Script.fine []
           (Form Sim.delete_celeste) (Form Script.celeste_with_extras)
           eq_refl eq_refl eq_refl).
Defined.

(** A suggestion that is found and encoded. *)
Lemma suggestGamesHandler_success_witness :
  w (final (Script.run suggestGamesHandler Script.suggest_two Script.fine)) =
    {| header := <["Content-Type" := ["application/json"]]> ∅;
       status := Some StatusOK;
       body := "[Hades]" |} /\
  logged (trace (final (Script.run suggestGamesHandler Script.suggest_two
                          Script.fine))) = [] /\
  sys (final (Script.run suggestGamesHandler Script.suggest_two Script.fine))
    = Script.fine.
Proof.
  apply (suggestGamesHandler_success (EX := Script.externals)
           Script.suggest_two Script.fine Script.fine [] "Ha" ["Ce"]
           (Some ["Hades"]) "[Hades]" eq_refl eq_refl eq_refl).
Defined.

(** A suggestion while the provider is down, and one whose results
    cannot be encoded. *)
Lemma suggestGamesHandler_failure_witness :
  (w (final (Script.run suggestGamesHandler Script.suggest_two Script.search_down)) =
     error_reply "Search failed." StatusInternalServerError /\
   logged (trace (final (Script.run suggestGamesHandler Script.suggest_two
                           Script.search_down))) = ["giantbomb: timeout"]) /\
  (w (final (Script.run suggestGamesHandler Script.suggest_two Script.unmarshalable)) =
     error_reply "Internal error." StatusInternalServerError /\
   logged (trace (final (Script.run suggestGamesHandler Script.suggest_two
                           Script.unmarshalable))) = ["json: unsupported value"]).
Proof.
  split.
  - apply (proj1 (suggestGamesHandler_failure (EX := Script.externals)
                    Script.suggest_two Script.search_down Script.search_down []
                    "Ha" ["Ce"] eq_refl)
             "giantbomb: timeout" eq_refl).
  - apply (proj2 (suggestGamesHandler_failure (EX := Script.externals)
                    Script.suggest_two Script.unmarshalable Script.unmarshalable []
                    "Ha" ["Ce"] eq_refl)
             None "json: unsupported value" eq_refl eq_refl).
Defined.

(** [q=Ha&q=Ce] and [q=Ha&page=2], with different field lists before. *)
Lemma suggestGamesHandler_reads_first_q_only_witness :
  serve (EX := Script.externals) suggestGamesHandler Script.suggest_two
    Script.fine []
  = serve (EX := Script.externals) suggestGamesHandler Script.suggest_one
      Script.fine ["deck"].
Proof.
  apply (suggestGamesHandler_reads_first_q_only (EX := Script.externals)
           Script.suggest_two Script.suggest_one Script.fine [] ["deck"]
           "Ha" ["Ce"] [] eq_refl eq_refl).
Defined.

(** The field list after a failed search, and after a request without
    [q]. *)
Lemma suggestGamesHandler_FieldList_witness :
  giantbomb_FieldList
    (final (Script.run suggestGamesHandler Script.suggest_two Script.search_down))
    = ["id"; "name"; "platforms"] /\
  giantbomb_FieldList
    (final (serve (EX := Script.externals) suggestGamesHandler Script.get_page
              Script.fine ["deck"]))
    = ["deck"].
Proof.
  split.
  - apply (proj2 (suggestGamesHandler_FieldList (EX := Script.externals)
                    Script.suggest_two Script.search_down []) ["Ha"; "Ce"] eq_refl).
  - apply (proj1 (suggestGamesHandler_FieldList (EX := Script.externals)
                    Script.get_page Script.fine ["deck"]) eq_refl).
Defined.

(** [q=Ha&q=Ce] while the provider is down. *)
Lemma suggestGamesHandler_never_panics_witness :
  panicked (Script.run suggestGamesHandler Script.suggest_two Script.search_down)
    = false.
Proof.
  apply (suggestGamesHandler_never_panics (EX := Script.externals)
           Script.suggest_two Script.search_down []).
  intros vs Hq. injection Hq as <-. discriminate.
Defined.

(** Quick-add keeps to the storage. *)
Lemma handlers_keep_to_their_service_witness :
  storage_calls (trace (final (Script.run suggestGamesHandler Script.suggest_two
                                 Script.fine))) = [] /\
  search_calls (trace (final (Script.run quickAddHandler Sim.quick_add_celeste
                                Script.fine))) = [] /\
  giantbomb_FieldList (final (Script.run quickAddHandler Sim.quick_add_celeste
                                Script.fine)) = [] /\
  (length (storage_calls (trace (final (Script.run quickAddHandler
                                          Sim.quick_add_celeste Script.fine))))
   <= 1)%nat.
Proof.
  split.
  - apply (proj1 (handlers_keep_to_their_service (EX := Script.externals)
                    Script.suggest_two Script.fine [])).
  - apply (proj2 (handlers_keep_to_their_service (EX := Script.externals)
                    Sim.quick_add_celeste Script.fine [])
             quickAddHandler (or_intror (or_introl eq_refl))).
Defined.

(** The listing page while the store is down. *)
Lemma indexHandler_storage_failure_witness :
  w (final (Script.run_index Script.store_down)) =
    error_reply "Failed to get games." StatusInternalServerError /\
  trace (final (Script.run_index Script.store_down)) = [CallLog "database is down"].
Proof.
  apply (indexHandler_storage_failure (PG := Script.pages)
           Script.get_page Script.store_down Script.store_down [] []
           "database is down" eq_refl).
Defined.

(** The listing page without its files, and with a template that fails
    before its first write. *)
Lemma indexHandler_template_error_is_sent_witness :
  w (final (Script.run_index Script.no_templates)) =
    error_reply "open templates/base.html: no such file" StatusInternalServerError /\
  w (final (Script.run_index Script.early_template_error)) =
    error_reply "template: no such field" StatusInternalServerError.
Proof.
  split.
  - apply (proj1 (indexHandler_template_error_is_sent (PG := Script.pages)
                    Script.get_page Script.no_templates Script.no_templates []
                    (Sim.games Sim.world) eq_refl)
             "open templates/base.html: no such file" eq_refl).
  - apply (proj2 (indexHandler_template_error_is_sent (PG := Script.pages)
                    Script.get_page Script.early_template_error
                    Script.early_template_error [] (Sim.games Sim.world) eq_refl)
             ([], Some "template: no such field") "template: no such field"
             eq_refl eq_refl).
Defined.

(** The listing page, and a listing page whose only write is empty. *)
Lemma indexHandler_renders_all_games_witness :
  (body (w (final (Script.run_index Script.fine))) = "<html></html>" /\
   status (w (final (Script.run_index Script.fine))) = Some StatusOK /\
   sys (final (Script.run_index Script.fine)) = Script.fine) /\
  (body (w (final (Script.run_index Script.empty_page))) = "" /\
   status (w (final (Script.run_index Script.empty_page))) = Some StatusOK /\
   sys (final (Script.run_index Script.empty_page)) = Script.empty_page).
Proof.
  split.
  - apply (indexHandler_renders_all_games (PG := Script.pages)
             Script.get_page Script.fine Script.fine [] (Sim.games Sim.world)
             (["<html>"; "</html>"], None) ["<html>"; "</html>"]
             eq_refl eq_refl eq_refl).
  - apply (indexHandler_renders_all_games (PG := Script.pages)
             Script.get_page Script.empty_page Script.empty_page []
             (Sim.games Sim.world) ([""], None) [""] eq_refl eq_refl eq_refl).
Defined.

(** The detail page of game 12. *)
Lemma gameHandler_looks_nothing_up_witness :
  panicked (Script.run_game {[ "id" := "12" ]} Script.fine) = false /\
  sys (final (Script.run_game {[ "id" := "12" ]} Script.fine)) = Script.fine /\
  exists failed,
    trace (final (Script.run_game {[ "id" := "12" ]} Script.fine)) =
      [CallParseFiles ["templates/game.html"; "templates/base.html"] failed].
Proof.
  exact (gameHandler_looks_nothing_up (PG := Script.pages)
           {[ "id" := "12" ]} Script.get_page Script.fine []).
Defined.

(** An id of twenty digits, and no id at all. *)
Lemma gameHandler_bad_id_is_server_error_witness :
  w (final (Script.run_game {[ "id" := "99999999999999999999" ]} Script.fine)) =
    error_reply "Failed to parse game ID." StatusInternalServerError /\
  w (final (Script.run_game ∅ Script.fine)) =
    error_reply "Failed to parse game ID." StatusInternalServerError.
Proof.
  split.
  - refine (proj1 (gameHandler_bad_id_is_server_error (PG := Script.pages)
                     {[ "id" := "99999999999999999999" ]} Script.get_page
                     Script.fine [] "value out of range" _)).
    reflexivity.
  - refine (proj1 (gameHandler_bad_id_is_server_error (PG := Script.pages)
                     ∅ Script.get_page Script.fine [] "invalid syntax" _)).
    reflexivity.
Defined.

(** The routes in reverse order. *)
Lemma makeRouter_order_immaterial_witness :
  Match (rev makeRouter) "POST" "/games/add" = Match makeRouter "POST" "/games/add".
Proof.
  apply (makeRouter_order_immaterial (rev makeRouter) "POST" "/games/add").
  apply Permutation_rev.
Defined.

(** [POST /games/delete] and [GET /games/delete]. *)
Lemma makeRouter_form_routes_witness :
  Match makeRouter "POST" "/games/delete" = Some (h_delete, ∅) /\
  Match makeRouter "GET" "/games/delete" <> Some (h_delete, ∅).
Proof.
  split.
  - apply (proj2 (proj2 (makeRouter_form_routes "POST" "/games/delete" ∅))).
    repeat split.
  - intros H.
    apply (proj2 (proj2 (makeRouter_form_routes "GET" "/games/delete" ∅))) in H.
    destruct H as (_ & H & _). discriminate H.
Defined.

(** [GET /games/42]. *)
Lemma makeRouter_game_route_witness :
  Match makeRouter "GET" "/games/42" = Some (h_game, {[ "id" := "42" ]}).
Proof.
  apply (proj2 (makeRouter_game_route "GET" "/games/42" {[ "id" := "42" ]})).
  exists "42". repeat split.
Defined.

(** [GET /games/add] in a world where every call succeeds. *)
Lemma GET_never_writes_witness :
  storage_calls
    (trace (final (addHandler Script.get_page (initial Script.fine [])))) = [].
Proof.
  apply (GET_never_writes (PG := Script.pages) Script.get_page "/games/add"
           (addHandler Script.get_page) Script.fine [] eq_refl eq_refl).
Defined.

End FurtherScenarios.
